(** * dashboard.py: model cache, trend forecast and month seasonality

    A shallow embedding of [src/dashboard.py].  The script is one top-level
    sequence of statements; the parts embedded here are

    - lines 15-37: the data frame and the train-if-missing step
      ([train_and_save_models], the existence check before it);
    - lines 53-73: loading the pickled models and the 90-day forecast;
    - lines 91-111 and 164-165: the month seasonality statements, which
      read and write module-level names.

    Conventions.
    - A [float64] cell is an exact rational ([Q]); rounding is not
      modelled.  NaN produced by [reindex] for a missing label is [None].
    - A [pandas.Timestamp] of the [date] column is its day number since
      1970-01-01 (pandas keeps an integer count since that epoch; the data
      has day resolution).  The representable range of Timestamp is not
      modelled.
    - A [Row] has four well-formed cells and the [models/] directory is a
      finite map from path to pickled object.  The last part of the
      definitions gives lines 15-37 once more on rows as [read_csv] can
      return them (a date that did not parse, a missing value) and on a
      disk with directories, statement by statement.
    - The stored objects are models of one feature, as the script pickles
      them; the feature count check of [predict] is not modelled.
    - Streamlit calls ([st.line_chart], [st.write], ...) draw and do not
      change any value the later statements read; they are left out, and
      so is the [import preprocessing] of lines 11-12, whose module is not
      part of the sources. *)

From Stdlib Require Import ZArith QArith Qfield List Bool Lia Sorted OrderedTypeEx.
From stdpp Require Import base option list gmap strings.

Local Open Scope Z_scope.

(** ** Exceptions and results *)

Inductive exn : Type :=
| ValueError
| NameError (name : string)
| TypeError
| FileNotFoundError (path : string).

Inductive result (A : Type) : Type :=
| Ok (a : A)
| Raise (e : exn).
Arguments Ok {A} a.
Arguments Raise {A} e.

Global Instance result_ret : MRet result := fun A a => Ok a.

Global Instance result_bind : MBind result := fun A B k r =>
  match r with
  | Ok a => k a
  | Raise e => Raise e
  end.

Definition succeeded {A : Type} (r : result A) : bool :=
  match r with Ok _ => true | Raise _ => false end.

(** ** Dates *)

Definition Timestamp : Type := Z.

(** [pd.Timestamp.toordinal]: proleptic Gregorian ordinal, day 1 is
    0001-01-01; 1970-01-01 is day 719163. *)
Definition toordinal (t : Timestamp) : Z := t + 719163.

(** [t + pd.Timedelta(days=n)]. *)
Definition add_days (t : Timestamp) (n : Z) : Timestamp := t + n.

Definition DAYS_BEFORE_MONTH (month : Z) : Z :=
  match month with
  | 1 => 0 | 2 => 31 | 3 => 59 | 4 => 90 | 5 => 120 | 6 => 151
  | 7 => 181 | 8 => 212 | 9 => 243 | 10 => 273 | 11 => 304 | 12 => 334
  | _ => -1
  end.

Definition DAYS_IN_MONTH (month : Z) : Z :=
  match month with
  | 1 => 31 | 2 => 28 | 3 => 31 | 4 => 30 | 5 => 31 | 6 => 30
  | 7 => 31 | 8 => 31 | 9 => 30 | 10 => 31 | 11 => 30 | 12 => 31
  | _ => -1
  end.

Definition b2z (b : bool) : Z := if b then 1 else 0.

(** Ordinal to (year, month, day), the conversion of Python's [datetime]
    ([_ord2ymd]): 400-, 100-, 4- and 1-year cycles, then the month from an
    estimate corrected by the table of days before each month. *)
Definition ord2ymd (ordinal : Z) : Z * Z * Z :=
  let n := ordinal - 1 in
  let n400 := n / 146097 in
  let n := n mod 146097 in
  let year := n400 * 400 + 1 in
  let n100 := n / 36524 in
  let n := n mod 36524 in
  let n4 := n / 1461 in
  let n := n mod 1461 in
  let n1 := n / 365 in
  let n := n mod 365 in
  let year := year + n100 * 100 + n4 * 4 + n1 in
  if (n1 =? 4) || (n100 =? 4) then (year - 1, 12, 31)
  else
    let leapyear := (n1 =? 3) && (negb (n4 =? 24) || (n100 =? 3)) in
    let month := Z.shiftr (n + 50) 5 in
    let preceding := DAYS_BEFORE_MONTH month + b2z ((2 <? month) && leapyear) in
    if n <? preceding then
      let month := month - 1 in
      let preceding :=
        preceding - (DAYS_IN_MONTH month + b2z ((month =? 2) && leapyear)) in
      (year, month, n - preceding + 1)
    else (year, month, n - preceding + 1).

Definition month_of (t : Timestamp) : Z := snd (fst (ord2ymd (toordinal t))).

(** Lines 97-98. *)
Definition months_order : list string :=
  ["January"; "February"; "March"; "April"; "May"; "June";
   "July"; "August"; "September"; "October"; "November"; "December"]%string.

(** [strftime("%B")]: the full month name. *)
Definition strftime_B (t : Timestamp) : string :=
  nth (Z.to_nat (month_of t - 1)) months_order EmptyString.

(** ** The data frame of [data/merged.csv] *)

Record Row : Type := mkRow {
  date : Timestamp;
  usage_kwh : Q;
  price_per_kwh : Q;
  daily_cost : Q
}.

Definition DataFrame : Type := list Row.

(** [df["date"].max()]; the maximum of an empty column is NaT ([None]). *)
Definition date_max (df : DataFrame) : option Timestamp :=
  match df with
  | [] => None
  | r :: rest => Some (fold_left Z.max (map date rest) (date r))
  end.

(** ** sklearn's LinearRegression on one feature *)

Definition Qsum (l : list Q) : Q := fold_left Qplus l 0%Q.

(** [numpy.mean]: the sum over the number of elements. *)
Definition Qmean (l : list Q) : Q := (Qsum l / inject_Z (Z.of_nat (length l)))%Q.

Definition Qis_zero (q : Q) : bool := Qnum q =? 0.

(** The attributes [fit] sets that the script can observe.  [singular_]
    (a square root) is set too; nothing reads it and it is left out. *)
Record LinearRegression : Type := mkModel {
  coef_ : Q;
  intercept_ : Q;
  rank_ : nat;
  n_features_in_ : nat
}.

(** [LinearRegression().fit(X, y)] with the default [fit_intercept=True]:
    both columns are centred on their means, the centred system is solved
    by least squares ([lstsq], whose answer for the all-zero column is the
    minimum-norm one, 0), and the intercept is
    [y_offset - X_offset * coef_].  An [X] without samples is refused with
    a ValueError. *)
Definition fit (X : list Z) (y : list Q) : result LinearRegression :=
  match X with
  | [] => Raise ValueError
  | _ :: _ =>
      let Xq := map inject_Z X in
      let X_offset := Qmean Xq in
      let y_offset := Qmean y in
      let Xc := map (fun x => (x - X_offset)%Q) Xq in
      let yc := map (fun v => (v - y_offset)%Q) y in
      let sxx := Qsum (map (fun x => (x * x)%Q) Xc) in
      let sxy := Qsum (zip_with Qmult Xc yc) in
      let singular := Qis_zero sxx in
      let coef := if singular then 0%Q else (sxy / sxx)%Q in
      Ok {| coef_ := coef;
            intercept_ := (y_offset - X_offset * coef)%Q;
            rank_ := if singular then 0%nat else 1%nat;
            n_features_in_ := 1 |}
  end.

(** The values of [model.predict(X)]: [X @ coef_ + intercept_], row by
    row. *)
Definition predict (m : LinearRegression) (X : list Z) : list Q :=
  map (fun x => (inject_Z x * coef_ m + intercept_ m)%Q) X.

(** [model.predict(X)] as lines 64-66 call it: the input is validated
    first, and an [X] without samples is refused with a ValueError; the
    values are those of [predict]. *)
Definition predict_validated (m : LinearRegression) (X : list Z)
    : result (list Q) :=
  match X with
  | [] => Raise ValueError
  | _ :: _ => Ok (predict m X)
  end.

(** ** The model files *)

Definition usage_path : string := "models/usage_model.pkl".
Definition price_path : string := "models/price_model.pkl".
Definition cost_path : string := "models/cost_model.pkl".

(** [os.path.exists]. *)
Definition path_exists (files : gmap string LinearRegression) (p : string) : bool :=
  bool_decide (is_Some (files !! p)).

(** [pickle.dump(model, open(p, "wb"))]: creates or overwrites the file. *)
Definition pickle_dump (m : LinearRegression) (p : string)
    (files : gmap string LinearRegression) : gmap string LinearRegression :=
  <[p := m]> files.

(** [pickle.load(open(p, "rb"))]. *)
Definition pickle_load (files : gmap string LinearRegression) (p : string)
    : result LinearRegression :=
  match files !! p with
  | Some m => Ok m
  | None => Raise (FileNotFoundError p)
  end.

(** Lines 18-34. *)
Definition train_and_save_models (df : DataFrame)
    (files : gmap string LinearRegression)
    : result (gmap string LinearRegression) :=
  let X := map (fun r => toordinal (date r)) df in
  let usage_y := map usage_kwh df in
  let price_y := map price_per_kwh df in
  let cost_y := map daily_cost df in
  usage_model ← fit X usage_y;
  price_model ← fit X price_y;
  cost_model ← fit X cost_y;
  mret (pickle_dump cost_model cost_path
         (pickle_dump price_model price_path
           (pickle_dump usage_model usage_path files))).

(** The condition of line 36. *)
Definition models_present (files : gmap string LinearRegression) : bool :=
  path_exists files usage_path && path_exists files price_path
  && path_exists files cost_path.

(** Lines 36-37.  The boolean tells whether line 37 ran. *)
Definition train_if_missing (df : DataFrame)
    (files : gmap string LinearRegression)
    : result (bool * gmap string LinearRegression) :=
  if negb (models_present files)
  then files' ← train_and_save_models df files; mret (true, files')
  else mret (false, files).

(** ** The forecast (lines 53-73) *)

(** [pd.date_range(start, periods=periods, freq="D")]: [periods]
    consecutive days from [start]; a NaT start is refused with a
    ValueError. *)
Definition date_range (start : option Timestamp) (periods : nat)
    : result (list Timestamp) :=
  match start with
  | None => Raise ValueError
  | Some s => Ok (map (fun i => add_days s (Z.of_nat i)) (seq 0 periods))
  end.

(** The columns of [forecast_df] (lines 68-73). *)
Record ForecastFrame : Type := mkForecast {
  fc_date : list Timestamp;
  forecast_usage : list Q;
  forecast_price : list Q;
  forecast_cost : list Q
}.

(** Lines 53-73 with the number of periods of line 61 as a parameter.
    [NaT + Timedelta] is NaT. *)
Definition forecast_periods (periods : nat) (df : DataFrame)
    (files : gmap string LinearRegression) : result ForecastFrame :=
  usage_model ← pickle_load files usage_path;
  price_model ← pickle_load files price_path;
  cost_model ← pickle_load files cost_path;
  future_dates ← date_range ((fun d => add_days d 1) <$> date_max df) periods;
  let X_future := map toordinal future_dates in
  forecast_usage ← predict_validated usage_model X_future;
  forecast_price ← predict_validated price_model X_future;
  forecast_cost ← predict_validated cost_model X_future;
  mret {| fc_date := future_dates;
          forecast_usage := forecast_usage;
          forecast_price := forecast_price;
          forecast_cost := forecast_cost |}.

(** Lines 53-73 as written: [periods=90]. *)
Definition forecast_section (df : DataFrame)
    (files : gmap string LinearRegression) : result ForecastFrame :=
  forecast_periods 90 df files.

(** ** Seasonality (lines 91-111, 164-165) *)

(** A [pandas.Series] of floats indexed by labels; NaN is [None]. *)
Definition Series : Type := list (string * option Q).

(** One group of [groupby]: the values of the rows with that key, in row
    order.  Groups are kept sorted by key ([sort=True] is the default). *)
Fixpoint group_insert (k : string) (v : Q) (groups : list (string * list Q))
    : list (string * list Q) :=
  match groups with
  | [] => [(k, [v])]
  | (k', vs) :: rest =>
      match String.compare k k' with
      | Eq => (k', vs ++ [v]) :: rest
      | Lt => (k, [v]) :: (k', vs) :: rest
      | Gt => (k', vs) :: group_insert k v rest
      end
  end.

(** Line 91 and [df.groupby("month")[col]]: the key of a row is the month
    name of its date. *)
Definition groupby_month (col : Row -> Q) (df : DataFrame)
    : list (string * list Q) :=
  fold_left (fun groups r => group_insert (strftime_B (date r)) (col r) groups)
            df [].

(** [df.groupby("month")[col].mean()]. *)
Definition groupby_month_mean (col : Row -> Q) (df : DataFrame) : Series :=
  map (fun g => (fst g, Some (Qmean (snd g)))) (groupby_month col df).

(** [s[label]] where a missing label gives NaN, as [reindex] reads it. *)
Definition series_get (s : Series) (label : string) : option Q :=
  match find (fun kv => String.eqb (fst kv) label) s with
  | Some kv => snd kv
  | None => None
  end.

(** [s.reindex(labels)]. *)
Definition reindex (s : Series) (labels : list string) : Series :=
  map (fun l => (l, series_get s l)) labels.

(** A row of [monthly_usage_cost]: the index label and the two columns
    ["Usage (kWh)"] and ["Cost ($)"]. *)
Record SeasonRow : Type := mkSeasonRow {
  Month : string;
  Usage_kWh : option Q;
  Cost_USD : option Q
}.

(** [pd.DataFrame({"Usage (kWh)": u, "Cost ($)": c}, index=index)]: both
    series are aligned on [index]. *)
Definition usage_cost_frame (u c : Series) (index : list string)
    : list SeasonRow :=
  map (fun l => {| Month := l;
                   Usage_kWh := series_get u l;
                   Cost_USD := series_get c l |}) index.

(** Values bound to the module-level names of the seasonality part. *)
Inductive pyval : Type :=
| VSeries (s : Series)
| VList (l : list string)
| VFrame (f : list SeasonRow).

(** Reading a name: an unbound name raises NameError. *)
Definition load_name (g : gmap string pyval) (x : string) : result pyval :=
  match g !! x with
  | Some v => Ok v
  | None => Raise (NameError x)
  end.

Definition as_series (v : pyval) : result Series :=
  match v with VSeries s => Ok s | _ => Raise TypeError end.

Definition as_list (v : pyval) : result (list string) :=
  match v with VList l => Ok l | _ => Raise TypeError end.

(** Line 94: [monthly_usage = df.groupby("month")["usage_kwh"].mean()]. *)
Definition stmt_94 (df : DataFrame) (g : gmap string pyval)
    : result (gmap string pyval) :=
  mret (<["monthly_usage" := VSeries (groupby_month_mean usage_kwh df)]> g).

(** Lines 97-98: [months_order = [...]]. *)
Definition stmt_97 (g : gmap string pyval) : result (gmap string pyval) :=
  mret (<["months_order" := VList months_order]> g).

(** Line 99: [monthly_usage = monthly_usage.reindex(months_order)]. *)
Definition stmt_99 (g : gmap string pyval) : result (gmap string pyval) :=
  v ← load_name g "monthly_usage";
  s ← as_series v;
  o ← load_name g "months_order";
  labels ← as_list o;
  mret (<["monthly_usage" := VSeries (reindex s labels)]> g).

(** Lines 108-111: the dict display is evaluated first, key by key, then
    the [index] argument. *)
Definition stmt_108 (g : gmap string pyval) : result (gmap string pyval) :=
  vu ← load_name g "monthly_usage";
  vc ← load_name g "monthly_cost";
  o ← load_name g "months_order";
  u ← as_series vu;
  c ← as_series vc;
  labels ← as_list o;
  mret (<["monthly_usage_cost" := VFrame (usage_cost_frame u c labels)]> g).

(** Line 164: [monthly_cost = df.groupby("month")["daily_cost"].mean()]. *)
Definition stmt_164 (df : DataFrame) (g : gmap string pyval)
    : result (gmap string pyval) :=
  mret (<["monthly_cost" := VSeries (groupby_month_mean daily_cost df)]> g).

(** Line 165: [monthly_cost = monthly_cost.reindex(months_order)]. *)
Definition stmt_165 (g : gmap string pyval) : result (gmap string pyval) :=
  v ← load_name g "monthly_cost";
  s ← as_series v;
  o ← load_name g "months_order";
  labels ← as_list o;
  mret (<["monthly_cost" := VSeries (reindex s labels)]> g).

(** The seasonality statements in the order of the file, run from a
    namespace in which none of their names is bound yet. *)
Definition seasonality (df : DataFrame) : result (gmap string pyval) :=
  g ← stmt_94 df ∅;
  g ← stmt_97 g;
  g ← stmt_99 g;
  g ← stmt_108 g;
  g ← stmt_164 df g;
  stmt_165 g.

(** Lines 94-99 alone: the statements up to the reindexed usage means. *)
Definition seasonality_usage (df : DataFrame) : result (gmap string pyval) :=
  g ← stmt_94 df ∅;
  g ← stmt_97 g;
  stmt_99 g.

(** ** The script *)

(** One run of the script on the data frame and the model files: the files
    as the run leaves them, and what the run computed.  Inside
    [train_and_save_models] every [fit] precedes every [pickle.dump], so a
    run that raises there leaves the files as they were. *)
Definition dashboard (df : DataFrame) (files : gmap string LinearRegression)
    : gmap string LinearRegression * result (ForecastFrame * gmap string pyval) :=
  match train_if_missing df files with
  | Raise e => (files, Raise e)
  | Ok (_, files1) =>
      (files1,
       forecast_df ← forecast_section df files1;
       g ← seasonality df;
       mret (forecast_df, g))
  end.

(** The three written files, for the models [um], [pm] and [cm]. *)
Definition saved (um pm cm : LinearRegression)
    (files : gmap string LinearRegression) : gmap string LinearRegression :=
  <[cost_path := cm]> (<[price_path := pm]> (<[usage_path := um]> files)).

(** Two runs of lines 36-37 in a row on the same data frame, the second on
    the files the first left. *)
Definition two_calls (df : DataFrame) (files : gmap string LinearRegression)
    : result (bool * bool * gmap string LinearRegression
              * gmap string LinearRegression) :=
  r1 ← train_if_missing df files;
  r2 ← train_if_missing df r1.2;
  mret (r1.1, r2.1, r1.2, r2.2).

(** How many of two runs executed line 37. *)
Definition trainings (t1 t2 : bool) : nat := Nat.b2n t1 + Nat.b2n t2.

(** The name of month [m], 1 to 12. *)
Definition month_name (m : Z) : string :=
  nth (Z.to_nat (m - 1)) months_order EmptyString.

(** The values of column [col] in the rows whose date falls in month [m]
    of any year, in row order. *)
Definition bucket (col : Row -> Q) (df : DataFrame) (m : Z) : list Q :=
  map col (filter (fun r => month_of (date r) = m) df).

(** The mean of a bucket; NaN for the bucket without rows. *)
Definition mean_or_nan (l : list Q) : option Q :=
  match l with
  | [] => None
  | _ :: _ => Some (Qmean l)
  end.

(** The group of key [k], if there is one. *)
Definition groups_get (groups : list (string * list Q)) (k : string)
    : option (list Q) :=
  match find (fun kv => String.eqb (fst kv) k) groups with
  | Some kv => Some (snd kv)
  | None => None
  end.

(** Groups in strictly increasing key order. *)
Definition groups_sorted (groups : list (string * list Q)) : Prop :=
  StronglySorted (fun a b => String.compare (fst a) (fst b) = Lt) groups.

(** The invariant of a daily series: dates strictly increasing, hence
    without repetition. *)
Definition ascending (l : list Z) : Prop :=
  forall (i j : nat) (a b : Z),
    (i < j)%nat -> l !! i = Some a -> l !! j = Some b -> a < b.

(** ** Sample inputs *)

(** Three consecutive days, 1970-01-01 to 1970-01-03. *)
Definition df_a : DataFrame :=
  [ mkRow 0 100 (1 # 10) 10; mkRow 1 101 (1 # 10) (101 # 10);
    mkRow 2 102 (1 # 10) (102 # 10) ].

(** [df_a] with the usage of the second day edited. *)
Definition df_b : DataFrame :=
  [ mkRow 0 100 (1 # 10) 10; mkRow 1 250 (1 # 10) (101 # 10);
    mkRow 2 102 (1 # 10) (102 # 10) ].

(** Dates out of order and repeated. *)
Definition df_unsorted : DataFrame :=
  [ mkRow 5 100 (1 # 10) 10; mkRow 3 101 (1 # 10) (101 # 10);
    mkRow 3 102 (1 # 10) (102 # 10) ].

(** A falling trend: 10 kWh on 1970-01-01, 5 kWh the day after. *)
Definition df_falling : DataFrame :=
  [ mkRow 0 10 (1 # 10) 1; mkRow 1 5 (1 # 10) (1 # 2) ].

(** The files a first run on [df_a] leaves in an empty directory. *)
Definition files_a : gmap string LinearRegression :=
  (dashboard df_a ∅).1.

Definition files_falling : gmap string LinearRegression :=
  (dashboard df_falling ∅).1.

(** Two January days a year apart and one February day. *)
Definition df_two_years : DataFrame :=
  [ mkRow 0 10 (1 # 10) 1; mkRow 31 7 (1 # 10) (7 # 10);
    mkRow 365 20 (1 # 10) 2 ].

(** ** Measures used in the statements about [fit] *)

(** The residual of the line [a * x + b] at the sample [(x, v)], written
    as [predict] computes the line. *)
Definition residual (a b : Q) (x : Z) (v : Q) : Q :=
  (v - (inject_Z x * a + b))%Q.

(** The sum of squared residuals of the line [a * x + b] over the samples
    [X], [y]. *)
Definition sse (a b : Q) (X : list Z) (y : list Q) : Q :=
  Qsum (zip_with (fun x v => (residual a b x v * residual a b x v)%Q) X y).

(** The centred sums of [fit], written over the samples. *)
Definition centred_sxx (X : list Z) : Q :=
  Qsum (map (fun x => (inject_Z x - Qmean (map inject_Z X))
                      * (inject_Z x - Qmean (map inject_Z X)))%Q X).

Definition centred_sxy (X : list Z) (y : list Q) : Q :=
  Qsum (zip_with (fun x v => (inject_Z x - Qmean (map inject_Z X))
                             * (v - Qmean y))%Q X y).

(** ** Sample columns *)

Definition X_scatter : list Z := [0; 1; 2].
Definition y_scatter : list Q := [1; 3; 2]%Q.

(** Values on the line [2 * x + 3]. *)
Definition X_line : list Z := [10; 11; 13].
Definition y_line : list Q := [23; 25; 29]%Q.

(** The ordinal of 1970-01-01 twice. *)
Definition X_same : list Z := [719163; 719163].
Definition y_same : list Q := [4; 6]%Q.

(** The column [col] of the frame lies on the line [a * ordinal + b]. *)
Definition on_line (col : Row -> Q) (df : DataFrame) (a b : Q) : Prop :=
  forall r : Row, In r df -> (col r == inject_Z (toordinal (date r)) * a + b)%Q.

(** Every value of a forecast column at its row satisfies [P], given the
    date of the row. *)
Definition column_all (dates : list Timestamp) (column : list Q)
    (P : Timestamp -> Q -> Prop) : Prop :=
  forall (i : nat) (t : Timestamp) (v : Q),
    dates !! i = Some t -> column !! i = Some v -> P t v.

(** A first row on 1970-01-05 and later rows on the two days before. *)
Definition df_line : DataFrame :=
  [ mkRow 4 108 (1 # 10) 3; mkRow 2 104 (1 # 10) 3; mkRow 3 106 (1 # 10) 3 ].

(** One date, two rows. *)
Definition df_one_date : DataFrame :=
  [ mkRow 7 4 (1 # 10) 1; mkRow 7 6 (3 # 10) 2 ].

(** Two cells of a float series that hold the same number, or NaN both. *)
Definition same_cell (a b : option Q) : Prop :=
  match a, b with
  | Some x, Some y => (x == y)%Q
  | None, None => True
  | _, _ => False
  end.

(** Rows of March, January and December, not in calendar order. *)
Definition df_months : DataFrame :=
  [ mkRow 60 30 (1 # 10) 3; mkRow 0 10 (1 # 10) 1; mkRow 340 50 (1 # 10) 5;
    mkRow 1 20 (1 # 10) 2 ].

(** The rows of [df_months] in another order. *)
Definition df_months_shuffled : DataFrame :=
  [ mkRow 1 20 (1 # 10) 2; mkRow 340 50 (1 # 10) 5; mkRow 60 30 (1 # 10) 3;
    mkRow 0 10 (1 # 10) 1 ].

(** The namespace lines 94-99 leave on [df_months], with [monthly_cost]
    bound as lines 164-165 would bind it. *)
Definition namespace_months : gmap string pyval :=
  <["monthly_cost" :=
      VSeries (reindex (groupby_month_mean daily_cost df_months) months_order)]>
    (match seasonality_usage df_months with
     | Ok g => g
     | Raise _ => ∅
     end).

(** ** The frame as read and the directory tree

    Lines 15-37 once more, closer to the file system and to the cells
    [read_csv] can return: a date cell that did not parse, a value cell
    that is missing, the [models] directory of line 28.  On rows whose
    cells are all well formed this is [train_if_missing]. *)

(** A cell of the [date] column after
    [read_csv(..., parse_dates=["date"])]: a timestamp, or the text of the
    file where it did not parse as a date.  A missing date (NaT) is not
    modelled. *)
Inductive DateCell : Type :=
| Parsed (t : Timestamp)
| Unparsed (text : string).

(** A row as read; a value cell is a number or NaN ([None]), what a
    missing value is read as. *)
Record RawRow : Type := mkRawRow {
  raw_date : DateCell;
  raw_usage_kwh : option Q;
  raw_price_per_kwh : option Q;
  raw_daily_cost : option Q
}.

(** The row as read of a row whose four cells are well formed. *)
Definition raw_of (r : Row) : RawRow :=
  {| raw_date := Parsed (date r);
     raw_usage_kwh := Some (usage_kwh r);
     raw_price_per_kwh := Some (price_per_kwh r);
     raw_daily_cost := Some (daily_cost r) |}.

(** Line 19, [df["date"].map(pd.Timestamp.toordinal)]: [toordinal] applied
    to a text raises TypeError. *)
Fixpoint ordinals (cells : list DateCell) : result (list Z) :=
  match cells with
  | [] => Ok []
  | Parsed t :: rest => X ← ordinals rest; mret (toordinal t :: X)
  | Unparsed _ :: _ => Raise TypeError
  end.

(** The numbers of a column, when no cell of it is NaN. *)
Fixpoint finite (cells : list (option Q)) : option (list Q) :=
  match cells with
  | [] => Some []
  | Some q :: rest =>
      match finite rest with
      | Some l => Some (q :: l)
      | None => None
      end
  | None :: _ => None
  end.

(** [LinearRegression().fit(X, y)] on a column as read: the validation of
    the inputs refuses a [y] that holds NaN with a ValueError; otherwise
    [fit]. *)
Definition fit_validated (X : list Z) (y : list (option Q))
    : result LinearRegression :=
  match finite y with
  | Some values => fit X values
  | None => Raise ValueError
  end.

(** The directories and the pickled models on disk. *)
Record Disk : Type := mkDisk {
  directories : gset string;
  pickles : gmap string LinearRegression
}.

(** A statement: it may change the disk and it returns or raises; a raise
    keeps what was written before it. *)
Definition io (A : Type) : Type := Disk -> Disk * result A.

Global Instance io_ret : MRet io := fun A a disk => (disk, Ok a).

Global Instance io_bind : MBind io := fun A B k c disk =>
  match c disk with
  | (disk', Ok a) => k a disk'
  | (disk', Raise e) => (disk', Raise e)
  end.

(** A computation that touches no path. *)
Definition compute {A : Type} (r : result A) : io A := fun disk => (disk, r).

(** [os.makedirs(p, exist_ok=True)]. *)
Definition makedirs (p : string) : io unit := fun disk =>
  ({| directories := {[p]} ∪ directories disk; pickles := pickles disk |},
   Ok tt).

(** [with open(p, "wb") as f: pickle.dump(m, f)]. *)
Definition dump (m : LinearRegression) (p : string) : io unit := fun disk =>
  ({| directories := directories disk;
      pickles := pickle_dump m p (pickles disk) |}, Ok tt).

(** Lines 18-34, statement by statement. *)
Definition train_and_save_models_io (raw : list RawRow) : io unit :=
  X ← compute (ordinals (map raw_date raw));
  usage_model ← compute (fit_validated X (map raw_usage_kwh raw));
  price_model ← compute (fit_validated X (map raw_price_per_kwh raw));
  cost_model ← compute (fit_validated X (map raw_daily_cost raw));
  _ ← makedirs "models";
  _ ← dump usage_model usage_path;
  _ ← dump price_model price_path;
  dump cost_model cost_path.

(** Lines 36-37; the boolean tells whether line 37 ran. *)
Definition train_if_missing_io (raw : list RawRow) : io bool := fun disk =>
  if negb (models_present (pickles disk))
  then (_ ← train_and_save_models_io raw; mret true) disk
  else (disk, Ok false).

(** Three rows, the date of the second not a date. *)
Definition raw_unparsed : list RawRow :=
  [ mkRawRow (Parsed 0) (Some 100%Q) (Some (1 # 10)%Q) (Some 10%Q);
    mkRawRow (Unparsed "n/a") (Some 101%Q) (Some (1 # 10)%Q) (Some (101 # 10)%Q);
    mkRawRow (Parsed 2) (Some 102%Q) (Some (1 # 10)%Q) (Some (102 # 10)%Q) ].

(** Two rows, the price of the second missing. *)
Definition raw_missing_price : list RawRow :=
  [ mkRawRow (Parsed 0) (Some 100%Q) (Some (1 # 10)%Q) (Some 10%Q);
    mkRawRow (Parsed 1) (Some 101%Q) None (Some (101 # 10)%Q) ].

(** A disk without a [models] directory. *)
Definition disk_empty : Disk := {| directories := ∅; pickles := ∅ |}.

(** * Properties *)

(** ** The train-if-missing step *)

Section TrainIfMissing.

Implicit Types (df : DataFrame) (files : gmap string LinearRegression).

Lemma path_exists_spec files (p : string) :
  path_exists files p = true <-> is_Some (files !! p).
Proof. unfold path_exists. apply bool_decide_eq_true. Qed.

Lemma path_exists_false files (p : string) :
  path_exists files p = false <-> files !! p = None.
Proof.
  unfold path_exists. rewrite bool_decide_eq_false.
  rewrite <- eq_None_not_Some. reflexivity.
Qed.

(** The condition of line 36 is false exactly when a file is absent. *)
Lemma models_present_false files :
  models_present files = false <->
  files !! usage_path = None \/ files !! price_path = None
  \/ files !! cost_path = None.
Proof.
  unfold models_present.
  rewrite !andb_false_iff, !path_exists_false. tauto.
Qed.

Lemma models_present_true files :
  models_present files = true <->
  is_Some (files !! usage_path) /\ is_Some (files !! price_path)
  /\ is_Some (files !! cost_path).
Proof.
  unfold models_present.
  rewrite !andb_true_iff, !path_exists_spec. tauto.
Qed.

Lemma fit_nonempty (X : list Z) (y : list Q) :
  X <> [] -> exists m, fit X y = Ok m.
Proof. destruct X as [|x X]; [congruence|]. intros _. eexists. reflexivity. Qed.

Lemma fit_empty (y : list Q) : fit [] y = Raise ValueError.
Proof. reflexivity. Qed.

Lemma saved_lookup um pm cm files :
  saved um pm cm files !! usage_path = Some um
  /\ saved um pm cm files !! price_path = Some pm
  /\ saved um pm cm files !! cost_path = Some cm
  /\ forall p : string, p <> usage_path -> p <> price_path -> p <> cost_path ->
       saved um pm cm files !! p = files !! p.
Proof.
  unfold saved. repeat split.
  - rewrite lookup_insert_ne by discriminate.
    rewrite lookup_insert_ne by discriminate.
    apply lookup_insert_eq.
  - rewrite lookup_insert_ne by discriminate. apply lookup_insert_eq.
  - apply lookup_insert_eq.
  - intros p Hu Hp Hc. rewrite !lookup_insert_ne by congruence. reflexivity.
Qed.

Lemma saved_present um pm cm files :
  models_present (saved um pm cm files) = true.
Proof.
  apply models_present_true.
  destruct (saved_lookup um pm cm files) as (-> & -> & -> & _).
  repeat split; eexists; reflexivity.
Qed.

(** What line 37 does when it completes: three fits on the same ordinal
    column, then the three files. *)
Lemma train_and_save_models_inv df files files' :
  train_and_save_models df files = Ok files' ->
  exists um pm cm,
    fit (map (fun r => toordinal (date r)) df) (map usage_kwh df) = Ok um
    /\ fit (map (fun r => toordinal (date r)) df) (map price_per_kwh df) = Ok pm
    /\ fit (map (fun r => toordinal (date r)) df) (map daily_cost df) = Ok cm
    /\ files' = saved um pm cm files.
Proof.
  unfold train_and_save_models, saved, pickle_dump.
  destruct (fit _ (map usage_kwh df)) as [um|e]; [|discriminate].
  destruct (fit _ (map price_per_kwh df)) as [pm|e]; [|discriminate].
  destruct (fit _ (map daily_cost df)) as [cm|e]; [|discriminate].
  cbn. intros [= <-]. exists um, pm, cm. repeat split; reflexivity.
Qed.

Lemma train_and_save_models_nonempty df files :
  df <> [] -> exists files', train_and_save_models df files = Ok files'.
Proof.
  intros Hdf. unfold train_and_save_models.
  destruct df as [|r df]; [congruence|]. cbn. eexists. reflexivity.
Qed.

Lemma train_and_save_models_empty files :
  train_and_save_models [] files = Raise ValueError.
Proof. reflexivity. Qed.

Lemma train_if_missing_hit df files :
  models_present files = true ->
  train_if_missing df files = Ok (false, files).
Proof. intros H. unfold train_if_missing. rewrite H. reflexivity. Qed.

Lemma train_if_missing_miss df files :
  models_present files = false ->
  train_if_missing df files =
  (files' ← train_and_save_models df files; mret (true, files')).
Proof. intros H. unfold train_if_missing. rewrite H. reflexivity. Qed.

Lemma train_if_missing_nonempty df files :
  df <> [] ->
  exists files', train_if_missing df files
                 = Ok (negb (models_present files), files').
Proof.
  intros Hdf. destruct (models_present files) eqn:Hp.
  - exists files. apply train_if_missing_hit, Hp.
  - destruct (train_and_save_models_nonempty df files Hdf) as [files' Ht].
    exists files'. rewrite train_if_missing_miss by exact Hp.
    rewrite Ht. reflexivity.
Qed.

Lemma train_if_missing_present df files (t : bool) files' :
  train_if_missing df files = Ok (t, files') -> models_present files' = true.
Proof.
  destruct (models_present files) eqn:Hp.
  - rewrite train_if_missing_hit by exact Hp. intros [= _ <-]. exact Hp.
  - rewrite train_if_missing_miss by exact Hp.
    destruct (train_and_save_models df files) as [f|e] eqn:Ht; [|discriminate].
    cbn. intros [= _ <-].
    apply train_and_save_models_inv in Ht as (um & pm & cm & _ & _ & _ & ->).
    apply saved_present.
Qed.

End TrainIfMissing.

(** ** Claims on the model files *)

(** C10.  Line 37 runs exactly when at least one of the three model files
    is absent.  When the step completes, all three files exist; if line 37
    ran, the three files hold the models fitted on the usage, price and
    cost columns against the one ordinal column of the same data frame and
    no other path changed; if it did not run, the files are unchanged.
    On a data frame with at least one row the step completes. *)
Theorem C10_training_all_or_nothing
    (df : DataFrame) (files : gmap string LinearRegression) :
  (models_present files = false <->
     files !! usage_path = None \/ files !! price_path = None
     \/ files !! cost_path = None)
  /\ (forall (t : bool) files',
        train_if_missing df files = Ok (t, files') ->
        t = negb (models_present files)
        /\ models_present files' = true
        /\ (t = false -> files' = files)
        /\ (t = true ->
            exists um pm cm,
              fit (map (fun r => toordinal (date r)) df) (map usage_kwh df) = Ok um
              /\ fit (map (fun r => toordinal (date r)) df) (map price_per_kwh df) = Ok pm
              /\ fit (map (fun r => toordinal (date r)) df) (map daily_cost df) = Ok cm
              /\ files' !! usage_path = Some um
              /\ files' !! price_path = Some pm
              /\ files' !! cost_path = Some cm
              /\ forall p : string,
                   p <> usage_path -> p <> price_path -> p <> cost_path ->
                   files' !! p = files !! p))
  /\ (df <> [] ->
      exists files', train_if_missing df files
                     = Ok (negb (models_present files), files')).
Proof.
  split; [apply models_present_false|]. split.
  - intros t files' Hrun.
    pose proof (train_if_missing_present _ _ _ _ Hrun) as Hpres.
    destruct (models_present files) eqn:Hp.
    + rewrite train_if_missing_hit in Hrun by exact Hp.
      injection Hrun as <- <-. repeat split; try assumption; try reflexivity.
      discriminate.
    + rewrite train_if_missing_miss in Hrun by exact Hp.
      destruct (train_and_save_models df files) as [f|e] eqn:Ht; [|discriminate].
      cbn in Hrun. injection Hrun as <- <-.
      repeat split; try assumption; try discriminate.
      intros _.
      apply train_and_save_models_inv in Ht as (um & pm & cm & Hu & Hpm & Hc & ->).
      exists um, pm, cm.
      destruct (saved_lookup um pm cm files) as (Lu & Lp & Lc & Lo).
      repeat split; assumption.
  - apply train_if_missing_nonempty.
Qed.

Lemma C10_training_all_or_nothing_witness :
  df_a <> [] /\
  exists files', train_if_missing df_a ∅ = Ok (negb (models_present ∅), files').
Proof.
  assert (H : df_a <> []) by discriminate.
  split; [exact H|].
  exact (proj2 (proj2 (C10_training_all_or_nothing df_a ∅)) H).
Defined.

(** C1, as the code has it.  No fingerprint of the series is computed or
    stored.  Lines 36-37 retrain exactly when a model file is absent.
    When the three files are present the step trains nothing and leaves
    the files as they are, whatever the data frame holds.  When a file is
    absent and the frame has a row, the step fits the three columns of
    the frame and stores the three fits.  A completed step has trained if
    and only if a file was absent. *)
Theorem C1_retrains_iff_file_absent
    (df : DataFrame) (files : gmap string LinearRegression) :
  (models_present files = true ->
   train_if_missing df files = Ok (false, files)
   /\ forall df' : DataFrame, train_if_missing df' files = Ok (false, files))
  /\ (models_present files = false -> df <> [] ->
      exists um pm cm,
        fit (map (fun r => toordinal (date r)) df) (map usage_kwh df) = Ok um
        /\ fit (map (fun r => toordinal (date r)) df) (map price_per_kwh df) = Ok pm
        /\ fit (map (fun r => toordinal (date r)) df) (map daily_cost df) = Ok cm
        /\ train_if_missing df files = Ok (true, saved um pm cm files))
  /\ (forall (t : bool) files',
        train_if_missing df files = Ok (t, files') ->
        (t = true <-> models_present files = false)).
Proof.
  split; [|split].
  - intros Hp. split; [apply train_if_missing_hit, Hp|].
    intros df'. apply train_if_missing_hit, Hp.
  - intros Hmiss Hdf.
    destruct (train_and_save_models_nonempty df files Hdf) as [files' Ht].
    pose proof Ht as Hinv.
    apply train_and_save_models_inv in Hinv as (um & pm & cm & Fu & Fp & Fc & ->).
    exists um, pm, cm. do 3 (split; [assumption|]).
    rewrite train_if_missing_miss by exact Hmiss. rewrite Ht. reflexivity.
  - intros t files' Hrun. destruct (models_present files) eqn:Hp.
    + rewrite train_if_missing_hit in Hrun by exact Hp.
      injection Hrun as <- _. split; discriminate.
    + rewrite train_if_missing_miss in Hrun by exact Hp.
      destruct (train_and_save_models df files) as [f|e]; [|discriminate Hrun].
      cbn in Hrun. injection Hrun as <- _. split; reflexivity.
Qed.

Lemma C1_retrains_iff_file_absent_witness :
  (models_present files_a = true
   /\ train_if_missing df_b files_a = Ok (false, files_a))
  /\ (models_present ∅ = false /\ df_b <> []
      /\ exists um pm cm, train_if_missing df_b ∅ = Ok (true, saved um pm cm ∅)).
Proof.
  assert (Hp : models_present files_a = true) by (vm_compute; reflexivity).
  assert (Hm : models_present (∅ : gmap string LinearRegression) = false)
    by reflexivity.
  assert (Hdf : df_b <> []) by discriminate.
  split.
  - split; [exact Hp|].
    exact (proj1 (proj1 (C1_retrains_iff_file_absent df_b files_a) Hp)).
  - split; [exact Hm|]. split; [exact Hdf|].
    destruct (proj1 (proj2 (C1_retrains_iff_file_absent df_b ∅)) Hm Hdf)
      as (um & pm & cm & _ & _ & _ & Hrun).
    exists um, pm, cm. exact Hrun.
Defined.

(** C1 fails as stated: [df_b] is [df_a] with one usage value edited, the
    first run on [df_a] trained and saved, and the next run on [df_b] does
    not retrain: it keeps the files of [df_a], whose usage model is not the
    one a fit on [df_b] gives. *)
Lemma C1_edit_not_detected :
  train_if_missing df_a ∅ = Ok (true, files_a)
  /\ (exists r r' : Row,
        df_a !! 1%nat = Some r /\ df_b = <[1%nat := r']> df_a
        /\ ~ (usage_kwh r == usage_kwh r')%Q)
  /\ train_if_missing df_b files_a = Ok (false, files_a)
  /\ (exists m m' : LinearRegression,
        pickle_load files_a usage_path = Ok m
        /\ fit (map (fun r => toordinal (date r)) df_b) (map usage_kwh df_b) = Ok m'
        /\ ~ (intercept_ m == intercept_ m')%Q).
Proof.
  split; [vm_compute; reflexivity|]. split.
  { eexists _, _. split; [reflexivity|]. split; [reflexivity|].
    vm_compute. discriminate. }
  split; [vm_compute; reflexivity|].
  eexists _, _. split; [vm_compute; reflexivity|]. split; [vm_compute; reflexivity|].
  vm_compute. discriminate.
Qed.

Lemma two_calls_nonempty
    (df : DataFrame) (files : gmap string LinearRegression) :
  df <> [] ->
  exists files1,
    train_if_missing df files = Ok (negb (models_present files), files1)
    /\ two_calls df files
       = Ok (negb (models_present files), false, files1, files1).
Proof.
  intros Hdf.
  destruct (train_if_missing_nonempty df files Hdf) as [files1 H1].
  exists files1. split; [exact H1|].
  unfold two_calls. rewrite H1. cbn.
  rewrite (train_if_missing_hit df files1)
    by exact (train_if_missing_present _ _ _ _ H1).
  reflexivity.
Qed.

(** C6, as the code has it.  The models carry no fingerprint.  For every
    data frame with at least one row, two runs of lines 36-37 in a row
    complete; the second run trains nothing and leaves the files of the
    first, so both runs load the same models with the same coefficients.
    Line 37 runs once over the two runs when a model file was absent at
    the start and not at all when the three files were present, in which
    case the files are the initial ones. *)
Theorem C6_second_run_is_a_hit
    (df : DataFrame) (files : gmap string LinearRegression) :
  df <> [] ->
  exists (t1 t2 : bool) files1 files2,
    two_calls df files = Ok (t1, t2, files1, files2)
    /\ t2 = false
    /\ files2 = files1
    /\ (forall p : string, pickle_load files2 p = pickle_load files1 p)
    /\ (models_present files = false -> trainings t1 t2 = 1%nat)
    /\ (models_present files = true ->
        trainings t1 t2 = 0%nat /\ files1 = files).
Proof.
  intros Hdf.
  destruct (two_calls_nonempty df files Hdf) as (files1 & H1 & H2).
  exists (negb (models_present files)), false, files1, files1.
  split; [exact H2|]. do 3 (split; [reflexivity|]). split.
  - intros ->. reflexivity.
  - intros Hp. rewrite Hp. split; [reflexivity|].
    rewrite train_if_missing_hit in H1 by exact Hp.
    rewrite Hp in H1. cbn in H1. congruence.
Qed.

Lemma C6_second_run_is_a_hit_witness :
  df_a <> [] /\
  exists (t1 t2 : bool) files1 files2,
    two_calls df_a ∅ = Ok (t1, t2, files1, files2)
    /\ files2 = files1 /\ trainings t1 t2 = 1%nat.
Proof.
  assert (H : df_a <> []) by discriminate.
  split; [exact H|].
  destruct (C6_second_run_is_a_hit df_a ∅ H)
    as (t1 & t2 & files1 & files2 & H2 & _ & Heq & _ & Hone & _).
  exists t1, t2, files1, files2. split; [exact H2|]. split; [exact Heq|].
  apply Hone. vm_compute. reflexivity.
Defined.

(** C6 fails as stated: [df_b] has three distinct ascending dates, the
    three model files are present (left by a run on [df_a]), and two runs
    in a row on [df_b] train zero times, not once; the usage model both
    return is the one fitted on [df_a], which differs from the fit of
    [df_b]. *)
Lemma C6_no_training_when_files_present :
  map date df_b = [0; 1; 2]
  /\ two_calls df_b files_a = Ok (false, false, files_a, files_a)
  /\ trainings false false <> 1%nat
  /\ (exists m m' : LinearRegression,
        pickle_load files_a usage_path = Ok m
        /\ fit (map (fun r => toordinal (date r)) df_a) (map usage_kwh df_a) = Ok m
        /\ fit (map (fun r => toordinal (date r)) df_b) (map usage_kwh df_b) = Ok m'
        /\ ~ (intercept_ m == intercept_ m')%Q).
Proof.
  split; [reflexivity|]. split; [vm_compute; reflexivity|].
  split; [discriminate|].
  eexists _, _. split; [vm_compute; reflexivity|].
  split; [vm_compute; reflexivity|]. split; [vm_compute; reflexivity|].
  vm_compute. discriminate.
Qed.


(** ** The forecast *)

Section Forecast.

Implicit Types (df : DataFrame) (files : gmap string LinearRegression).

Lemma fold_left_max_ge (l : list Z) (a : Z) :
  a <= fold_left Z.max l a /\ forall x, In x l -> x <= fold_left Z.max l a.
Proof.
  revert a. induction l as [|y l IH]; intros a; cbn.
  - split; [lia|]. intros x [].
  - destruct (IH (Z.max a y)) as [Ha Hl]. split; [lia|].
    intros x [<-|Hx]; [lia|]. apply Hl, Hx.
Qed.

Lemma fold_left_max_in (l : list Z) (a : Z) :
  In (fold_left Z.max l a) (a :: l).
Proof.
  revert a. induction l as [|y l IH]; intros a; cbn.
  - left. reflexivity.
  - destruct (IH (Z.max a y)) as [H|H].
    + destruct (Z.max_spec a y) as [[_ E]|[_ E]]; rewrite E in H |- *.
      * right. left. exact H.
      * left. exact H.
    + right. right. exact H.
Qed.

(** [df["date"].max()] is a date of the column and bounds the column. *)
Lemma date_max_spec df (d : Timestamp) :
  date_max df = Some d ->
  In d (map date df) /\ forall x, In x (map date df) -> x <= d.
Proof.
  destruct df as [|r rest]; [discriminate|]. cbn. intros [= <-]. split.
  - destruct (fold_left_max_in (map date rest) (date r)) as [H|H]; auto.
  - destruct (fold_left_max_ge (map date rest) (date r)) as [Ha Hl].
    intros x [<-|Hx]; [exact Ha|apply Hl, Hx].
Qed.

Lemma date_max_nonempty df : df <> [] -> exists d, date_max df = Some d.
Proof. destruct df; [congruence|]. intros _. eexists. reflexivity. Qed.

(** On a series in ascending date order the maximum is the last date. *)
Lemma date_max_last df (d : Timestamp) :
  date_max df = Some d -> ascending (map date df) ->
  last (map date df) = Some d.
Proof.
  intros Hmax Hasc. apply date_max_spec in Hmax as [Hin Hle].
  destruct (last (map date df)) as [z|] eqn:Hlast.
  - apply last_Some in Hlast as [l' Hl'].
    assert (Hz : In z (map date df)).
    { rewrite Hl'. apply in_or_app. right. left. reflexivity. }
    apply Hle in Hz.
    apply list_elem_of_In, list_elem_of_lookup in Hin as [i Hi].
    assert (Hlz : map date df !! length l' = Some z).
    { rewrite Hl'. apply list_lookup_middle. reflexivity. }
    destruct (decide (i = length l')) as [->|Hne]; [congruence|].
    assert (Hlt : (i < length l')%nat).
    { apply lookup_lt_Some in Hi. rewrite Hl', length_app in Hi. cbn in Hi. lia. }
    pose proof (Hasc _ _ _ _ Hlt Hi Hlz). lia.
  - apply last_None in Hlast. rewrite Hlast in Hin. destruct Hin.
Qed.

Lemma date_range_lookup (s : Timestamp) (periods : nat) (l : list Timestamp) :
  date_range (Some s) periods = Ok l ->
  length l = periods
  /\ forall (i : nat) (t : Timestamp),
       l !! i = Some t <-> (i < periods)%nat /\ t = s + Z.of_nat i.
Proof.
  cbn. intros [= <-]. split; [rewrite length_map, length_seq; reflexivity|].
  intros i t. rewrite list_lookup_fmap. unfold add_days. split.
  - intros H. destruct (seq 0 periods !! i) as [k|] eqn:Hk; [|discriminate].
    apply lookup_seq in Hk as [-> Hlt]. cbn in H. injection H as <-.
    split; [exact Hlt|reflexivity].
  - intros [Hlt ->]. rewrite (lookup_seq_lt _ _ _ Hlt). reflexivity.
Qed.

Lemma pickle_load_present files (p : string) :
  is_Some (files !! p) -> exists m, pickle_load files p = Ok m.
Proof. intros [m Hm]. exists m. unfold pickle_load. rewrite Hm. reflexivity. Qed.

Lemma predict_validated_ok (m : LinearRegression) (X : list Z) :
  X <> [] -> predict_validated m X = Ok (predict m X).
Proof. destruct X; [congruence|reflexivity]. Qed.

Lemma predict_validated_inv (m : LinearRegression) (X : list Z) (v : list Q) :
  predict_validated m X = Ok v -> X <> [] /\ v = predict m X.
Proof.
  destruct X as [|x X]; [discriminate|]. cbn. intros [= <-].
  split; [discriminate|reflexivity].
Qed.

(** What lines 53-73 compute when they complete. *)
Lemma forecast_periods_inv (periods : nat) df files (fdf : ForecastFrame) :
  forecast_periods periods df files = Ok fdf ->
  exists um pm cm d,
    pickle_load files usage_path = Ok um
    /\ pickle_load files price_path = Ok pm
    /\ pickle_load files cost_path = Ok cm
    /\ date_max df = Some d
    /\ date_range (Some (d + 1)) periods = Ok (fc_date fdf)
    /\ forecast_usage fdf = predict um (map toordinal (fc_date fdf))
    /\ forecast_price fdf = predict pm (map toordinal (fc_date fdf))
    /\ forecast_cost fdf = predict cm (map toordinal (fc_date fdf)).
Proof.
  unfold forecast_periods.
  destruct (pickle_load files usage_path) as [um|e]; [|discriminate].
  destruct (pickle_load files price_path) as [pm|e]; [|discriminate].
  destruct (pickle_load files cost_path) as [cm|e]; [|discriminate].
  destruct (date_max df) as [d|]; [|discriminate].
  cbn [mbind result_bind fmap option_fmap option_map date_range].
  destruct (predict_validated um _) as [vu|e] eqn:Hu; [|discriminate].
  destruct (predict_validated pm _) as [vp|e] eqn:Hp; [|discriminate].
  destruct (predict_validated cm _) as [vc|e] eqn:Hc; [|discriminate].
  cbn [mbind result_bind mret result_ret]. intros [= <-].
  apply predict_validated_inv in Hu as [_ ->].
  apply predict_validated_inv in Hp as [_ ->].
  apply predict_validated_inv in Hc as [_ ->].
  exists um, pm, cm, d. cbn. repeat split; reflexivity.
Qed.

(** Lines 53-73 complete when the three files are there, the frame has a
    row and at least one period is asked for. *)
Lemma forecast_periods_ok (periods : nat) df files (d : Timestamp) :
  periods <> 0%nat ->
  date_max df = Some d -> models_present files = true ->
  exists fdf, forecast_periods periods df files = Ok fdf.
Proof.
  intros Hn Hd Hp. apply models_present_true in Hp as (Hu & Hpr & Hc).
  destruct (pickle_load_present _ _ Hu) as [um Eu].
  destruct (pickle_load_present _ _ Hpr) as [pm Ep].
  destruct (pickle_load_present _ _ Hc) as [cm Ec].
  unfold forecast_periods. rewrite Eu, Ep, Ec, Hd.
  cbn [mbind result_bind fmap option_fmap option_map date_range].
  destruct periods as [|n]; [congruence|].
  rewrite !predict_validated_ok by (cbn; discriminate).
  eexists. reflexivity.
Qed.

(** Lines 53-73 as written, with 90 periods. *)
Lemma forecast_ninety_ok df files (d : Timestamp) :
  date_max df = Some d -> models_present files = true ->
  exists fdf, forecast_periods 90 df files = Ok fdf.
Proof. apply forecast_periods_ok. discriminate. Qed.

(** Without a period the first [predict] refuses its empty input. *)
Lemma forecast_periods_zero df files (d : Timestamp) :
  date_max df = Some d -> models_present files = true ->
  forecast_periods 0 df files = Raise ValueError.
Proof.
  intros Hd Hp. apply models_present_true in Hp as (Hu & Hpr & Hc).
  destruct (pickle_load_present _ _ Hu) as [um Eu].
  destruct (pickle_load_present _ _ Hpr) as [pm Ep].
  destruct (pickle_load_present _ _ Hc) as [cm Ec].
  unfold forecast_periods. rewrite Eu, Ep, Ec, Hd. reflexivity.
Qed.

Lemma length_predict (m : LinearRegression) (X : list Z) :
  length (predict m X) = length X.
Proof. apply length_map. Qed.

Lemma Qmult_swap (x y : Q) : (x * y)%Q = (y * x)%Q.
Proof.
  unfold Qmult. f_equal; [apply Z.mul_comm|apply Pos.mul_comm].
Qed.

Lemma predict_lookup (m : LinearRegression) (dates : list Timestamp)
    (i : nat) (t : Timestamp) :
  dates !! i = Some t ->
  predict m (map toordinal dates) !! i
  = Some (coef_ m * inject_Z (toordinal t) + intercept_ m)%Q.
Proof.
  intros Ht. unfold predict.
  rewrite !list_lookup_fmap, Ht. cbn. rewrite Qmult_swap. reflexivity.
Qed.

End Forecast.

(** ** Claims on the forecast *)

(** C3.  With the three model files present and [d] the maximum date of
    the frame (its last date when the dates ascend), the forecast frame of
    lines 61-73 has exactly 90 rows: the date column and the three value
    columns have 90 entries each.  The first date is [d] plus one day,
    every next date is one day after the one before, so every date is
    after [d] and the dates strictly ascend. *)
Theorem C3_forecast_dates
    (df : DataFrame) (files : gmap string LinearRegression) (d : Timestamp) :
  date_max df = Some d ->
  models_present files = true ->
  (ascending (map date df) -> last (map date df) = Some d)
  /\ exists fdf,
       forecast_section df files = Ok fdf
       /\ length (fc_date fdf) = 90%nat
       /\ length (forecast_usage fdf) = 90%nat
       /\ length (forecast_price fdf) = 90%nat
       /\ length (forecast_cost fdf) = 90%nat
       /\ fc_date fdf !! 0%nat = Some (add_days d 1)
       /\ (forall (i : nat) (t t' : Timestamp),
             fc_date fdf !! i = Some t -> fc_date fdf !! S i = Some t' ->
             t' = add_days t 1)
       /\ (forall (i : nat) (t : Timestamp), fc_date fdf !! i = Some t -> d < t)
       /\ (forall (i j : nat) (t t' : Timestamp),
             (i < j)%nat -> fc_date fdf !! i = Some t ->
             fc_date fdf !! j = Some t' -> t < t').
Proof.
  intros Hd Hp. split; [apply date_max_last, Hd|].
  destruct (forecast_ninety_ok df files d Hd Hp) as [fdf Hf].
  exists fdf. split; [exact Hf|].
  apply forecast_periods_inv in Hf
    as (um & pm & cm & d' & _ & _ & _ & Hd' & Hr & Hu & Hpr & Hc).
  assert (d' = d) as -> by congruence.
  apply date_range_lookup in Hr as [Hlen Hlk].
  rewrite Hu, Hpr, Hc, !length_predict, !length_map, Hlen.
  do 4 (split; [reflexivity|]). unfold add_days. split.
  { apply Hlk. split; [lia|]. cbn. lia. }
  split.
  { intros i t t' Hi Hi'. apply Hlk in Hi as [_ ->]. apply Hlk in Hi' as [_ ->]. lia. }
  split.
  { intros i t Hi. apply Hlk in Hi as [_ ->]. lia. }
  intros i j t t' Hij Hi Hj.
  apply Hlk in Hi as [_ ->]. apply Hlk in Hj as [_ ->]. lia.
Qed.

Lemma C3_forecast_dates_witness :
  date_max df_a = Some 2 /\ models_present files_a = true /\
  exists fdf,
    forecast_section df_a files_a = Ok fdf
    /\ length (fc_date fdf) = 90%nat
    /\ fc_date fdf !! 0%nat = Some 3.
Proof.
  assert (Hd : date_max df_a = Some 2) by reflexivity.
  assert (Hp : models_present files_a = true) by (vm_compute; reflexivity).
  split; [exact Hd|]. split; [exact Hp|].
  destruct (C3_forecast_dates df_a files_a 2 Hd Hp)
    as (_ & fdf & Hf & Hlen & _ & _ & _ & H0 & _).
  exists fdf. split; [exact Hf|]. split; [exact Hlen|exact H0].
Defined.

(** C4.  With the three model files present and a frame with a row, the
    forecast statements complete, and every value of the three forecast
    columns is the stored model's [coef_] times the ordinal of the date of
    its row plus the model's [intercept_]; nothing is applied to the value
    afterwards, so a negative value stays negative. *)
Theorem C4_forecast_values
    (df : DataFrame) (files : gmap string LinearRegression) (d : Timestamp) :
  date_max df = Some d ->
  models_present files = true ->
  exists fdf um pm cm,
    forecast_section df files = Ok fdf
    /\ pickle_load files usage_path = Ok um
    /\ pickle_load files price_path = Ok pm
    /\ pickle_load files cost_path = Ok cm
    /\ forall (i : nat) (t : Timestamp),
         fc_date fdf !! i = Some t ->
         forecast_usage fdf !! i
         = Some (coef_ um * inject_Z (toordinal t) + intercept_ um)%Q
         /\ forecast_price fdf !! i
            = Some (coef_ pm * inject_Z (toordinal t) + intercept_ pm)%Q
         /\ forecast_cost fdf !! i
            = Some (coef_ cm * inject_Z (toordinal t) + intercept_ cm)%Q.
Proof.
  intros Hd Hp.
  destruct (forecast_ninety_ok df files d Hd Hp) as [fdf Hf].
  pose proof Hf as Hinv.
  apply forecast_periods_inv in Hinv
    as (um & pm & cm & d' & Eu & Ep & Ec & _ & _ & Hu & Hpr & Hc).
  exists fdf, um, pm, cm. split; [exact Hf|].
  do 3 (split; [assumption|]).
  intros i t Ht. rewrite Hu, Hpr, Hc.
  repeat split; apply predict_lookup, Ht.
Qed.

(** On the falling series the usage model has slope -5 and intercept
    3595825 at ordinal 0, that is 10 kWh on 1970-01-01; the fourth
    forecast day, 1970-01-06, gets 10 - 5 * 5 = -15, and the frame holds
    that negative number. *)
Lemma C4_forecast_values_witness :
  date_max df_falling = Some 1 /\ models_present files_falling = true /\
  exists fdf um,
    forecast_section df_falling files_falling = Ok fdf
    /\ pickle_load files_falling usage_path = Ok um
    /\ (coef_ um == -5)%Q
    /\ fc_date fdf !! 3%nat = Some 5
    /\ forecast_usage fdf !! 3%nat
       = Some (coef_ um * inject_Z (toordinal 5%Z) + intercept_ um)%Q
    /\ (coef_ um * inject_Z (toordinal 5%Z) + intercept_ um == -15)%Q.
Proof.
  assert (Hd : date_max df_falling = Some 1) by reflexivity.
  assert (Hp : models_present files_falling = true) by (vm_compute; reflexivity).
  split; [exact Hd|]. split; [exact Hp|].
  destruct (C4_forecast_values df_falling files_falling 1 Hd Hp)
    as (fdf & um & pm & cm & Hf & Eu & _ & _ & Hv).
  exists fdf, um. split; [exact Hf|]. split; [exact Eu|].
  assert (Ht : fc_date fdf !! 3%nat = Some 5).
  { vm_compute in Hf. injection Hf as <-. reflexivity. }
  vm_compute in Eu. injection Eu as <-.
  split; [vm_compute; reflexivity|]. split; [exact Ht|].
  split; [exact (proj1 (Hv 3%nat 5 Ht))|].
  vm_compute. reflexivity.
Defined.




(** ** Months *)

Section Months.

(** The month of a date is one of the twelve. *)
Lemma month_of_range (t : Timestamp) : 1 <= month_of t <= 12.
Proof.
  unfold month_of, ord2ymd. cbv zeta.
  set (n400 := ((toordinal t - 1) mod 146097)).
  set (n100 := n400 mod 36524).
  set (n4 := n100 mod 1461).
  set (n := n4 mod 365).
  destruct ((n4 / 365 =? 4) || (n400 / 36524 =? 4)); [cbn; lia|].
  set (leapyear := (n4 / 365 =? 3) && _).
  assert (Hn : 0 <= n < 365) by (apply Z.mod_pos_bound; lia).
  set (month := Z.shiftr (n + 50) 5).
  assert (Hmonth : 1 <= month <= 12).
  { unfold month. rewrite Z.shiftr_div_pow2 by lia.
    change (2 ^ 5) with 32.
    pose proof (Z.div_mod (n + 50) 32 ltac:(lia)) as Hdm.
    pose proof (Z.mod_pos_bound (n + 50) 32 ltac:(lia)) as Hr.
    lia. }
  destruct (decide (month = 1)) as [E|E].
  - rewrite E.
    assert (Hc : (n <? DAYS_BEFORE_MONTH 1 + b2z ((2 <? 1) && leapyear)) = false)
      by (apply Z.ltb_ge; cbn; lia).
    rewrite Hc. cbn. lia.
  - destruct (n <? _); cbn [fst snd]; lia.
Qed.

Lemma month_name_inj (m m' : Z) :
  1 <= m <= 12 -> 1 <= m' <= 12 -> month_name m = month_name m' -> m = m'.
Proof.
  intros Hm Hm'.
  assert (Cm : m = 1 \/ m = 2 \/ m = 3 \/ m = 4 \/ m = 5 \/ m = 6 \/ m = 7
               \/ m = 8 \/ m = 9 \/ m = 10 \/ m = 11 \/ m = 12) by lia.
  assert (Cm' : m' = 1 \/ m' = 2 \/ m' = 3 \/ m' = 4 \/ m' = 5 \/ m' = 6
                \/ m' = 7 \/ m' = 8 \/ m' = 9 \/ m' = 10 \/ m' = 11 \/ m' = 12)
    by lia.
  repeat (destruct Cm as [->|Cm]); try subst m;
    repeat (destruct Cm' as [->|Cm']); try subst m';
    cbn; intros H; first [reflexivity | discriminate H].
Qed.

Lemma month_name_in (m : Z) : 1 <= m <= 12 -> In (month_name m) months_order.
Proof.
  intros Hm. unfold month_name. apply nth_In.
  change (length months_order) with 12%nat. lia.
Qed.

Lemma strftime_B_month_name (t : Timestamp) :
  strftime_B t = month_name (month_of t).
Proof. reflexivity. Qed.

(** A row has the key of month [m] exactly when its date is in month [m],
    whatever the year. *)
Lemma strftime_B_key (t : Timestamp) (m : Z) :
  1 <= m <= 12 -> (strftime_B t = month_name m <-> month_of t = m).
Proof.
  intros Hm. rewrite strftime_B_month_name. split.
  - apply month_name_inj; [apply month_of_range|exact Hm].
  - intros ->. reflexivity.
Qed.

End Months.

(** ** Grouping by month and reindexing *)

Section Seasonality.

Implicit Types (groups : list (string * list Q)) (k : string) (v : Q).

Lemma compare_lt_trans (a b c : string) :
  String.compare a b = Lt -> String.compare b c = Lt -> String.compare a c = Lt.
Proof.
  intros H1 H2.
  apply String_as_OT.cmp_lt in H1. apply String_as_OT.cmp_lt in H2.
  apply String_as_OT.cmp_lt. exact (String_as_OT.lt_trans _ _ _ H1 H2).
Qed.

Lemma compare_lt_neq (a b : string) : String.compare a b = Lt -> a <> b.
Proof.
  intros H ->. assert (E : String.compare b b = Eq) by (apply String_as_OT.cmp_eq; reflexivity).
  congruence.
Qed.

Lemma compare_gt_lt (a b : string) :
  String.compare a b = Gt -> String.compare b a = Lt.
Proof. intros H. rewrite String.compare_antisym, H. reflexivity. Qed.

Lemma groups_get_cons (kv : string * list Q) groups k :
  groups_get (kv :: groups) k
  = if decide (fst kv = k) then Some (snd kv) else groups_get groups k.
Proof.
  unfold groups_get. cbn.
  destruct (String.eqb_spec (fst kv) k) as [E|E];
    destruct (decide (fst kv = k)); try contradiction; reflexivity.
Qed.

(** Below the first key of sorted groups there is no group. *)
Lemma groups_get_below groups k :
  Forall (fun kv => String.compare k (fst kv) = Lt) groups ->
  groups_get groups k = None.
Proof.
  induction 1 as [|kv groups Hlt _ IH]; [reflexivity|].
  rewrite groups_get_cons.
  destruct (decide (fst kv = k)) as [E|_]; [|exact IH].
  symmetry in E. apply compare_lt_neq in Hlt. contradiction.
Qed.

Lemma group_insert_keys k v groups (k0 : string) :
  String.compare k0 k = Lt ->
  Forall (fun kv => String.compare k0 (fst kv) = Lt) groups ->
  Forall (fun kv => String.compare k0 (fst kv) = Lt) (group_insert k v groups).
Proof.
  intros Hk. induction 1 as [|[k' vs] groups Hlt Hall IH]; cbn.
  - constructor; [exact Hk|constructor].
  - destruct (String.compare k k') eqn:Hc; repeat constructor; assumption.
Qed.

(** [group_insert] keeps the groups sorted by key. *)
Lemma group_insert_sorted k v groups :
  groups_sorted groups -> groups_sorted (group_insert k v groups).
Proof.
  unfold groups_sorted.
  induction 1 as [|[k' vs] groups Hs IH Hall]; cbn.
  - repeat constructor.
  - destruct (String.compare k k') eqn:Hc.
    + constructor; assumption.
    + constructor; [constructor; assumption|].
      constructor; [exact Hc|].
      eapply Forall_impl; [exact Hall|].
      intros kv Hkv. cbn in *. exact (compare_lt_trans _ _ _ Hc Hkv).
    + constructor; [exact IH|].
      apply group_insert_keys; [apply compare_gt_lt, Hc|exact Hall].
Qed.

(** The group of [k] gets [v] at its end (and is created if absent); the
    other groups are as they were. *)
Lemma group_insert_get k v groups (k1 : string) :
  groups_sorted groups ->
  groups_get (group_insert k v groups) k1
  = if decide (k = k1)
    then Some (default [] (groups_get groups k) ++ [v])
    else groups_get groups k1.
Proof.
  unfold groups_sorted.
  induction 1 as [|[k' vs] groups Hs IH Hall]; cbn [group_insert].
  - rewrite groups_get_cons. cbn. destruct (decide (k = k1)); reflexivity.
  - destruct (String.compare k k') eqn:Hc.
    + apply String.compare_eq_iff in Hc. subst k'.
      rewrite !groups_get_cons. cbn.
      destruct (decide (k = k1)) as [E|E]; [|reflexivity].
      rewrite decide_True by reflexivity. reflexivity.
    + rewrite (groups_get_cons (k, [v])). cbn [fst snd].
      destruct (decide (k = k1)) as [E|E]; [|reflexivity].
      rewrite (groups_get_below ((k', vs) :: groups) k); [reflexivity|].
      constructor; [exact Hc|].
      eapply Forall_impl; [exact Hall|].
      intros kv Hkv. cbn in *. exact (compare_lt_trans _ _ _ Hc Hkv).
    + assert (Hne : k' <> k) by (apply compare_lt_neq, compare_gt_lt, Hc).
      rewrite !groups_get_cons, IH. cbn [fst snd].
      repeat case_decide; subst; first [reflexivity | congruence].
Qed.

Lemma group_snoc (b : list Q) v :
  Some (default [] match b with [] => None | q :: l => Some (q :: l) end ++ [v])
  = match b ++ [v] with [] => None | q :: l => Some (q :: l) end.
Proof. destruct b; reflexivity. Qed.

Lemma groupby_month_snoc (col : Row -> Q) (df : DataFrame) (r : Row) :
  groupby_month col (df ++ [r])
  = group_insert (strftime_B (date r)) (col r) (groupby_month col df).
Proof. unfold groupby_month. rewrite fold_left_app. reflexivity. Qed.

Lemma groupby_month_sorted (col : Row -> Q) (df : DataFrame) :
  groups_sorted (groupby_month col df).
Proof.
  induction df as [|r df IH] using rev_ind.
  - constructor.
  - rewrite groupby_month_snoc. apply group_insert_sorted, IH.
Qed.

(** The group of a key holds the column values of the rows with that key,
    in row order; a key no row has gets no group. *)
Lemma groupby_month_get (col : Row -> Q) (df : DataFrame) k :
  groups_get (groupby_month col df) k
  = match map col (filter (fun r => strftime_B (date r) = k) df) with
    | [] => None
    | b => Some b
    end.
Proof.
  induction df as [|r df IH] using rev_ind; [reflexivity|].
  rewrite groupby_month_snoc, group_insert_get by apply groupby_month_sorted.
  rewrite (filter_app _ df [r]), map_app, (filter_cons _ r []), filter_nil.
  destruct (decide (strftime_B (date r) = k)) as [E|E].
  - subst k. rewrite IH. cbn [map]. apply group_snoc.
  - rewrite IH. cbn [map]. rewrite app_nil_r. reflexivity.
Qed.

Lemma series_get_means groups k :
  series_get (map (fun g => (fst g, Some (Qmean (snd g)))) groups) k
  = Qmean <$> groups_get groups k.
Proof.
  unfold series_get, groups_get.
  induction groups as [|[k' vs] groups IH]; [reflexivity|]. cbn.
  destruct (String.eqb k' k); [reflexivity|exact IH].
Qed.

(** The mean series of [groupby] at a key: the mean of the column over the
    rows with that key, NaN when no row has it. *)
Lemma series_get_groupby_mean (col : Row -> Q) (df : DataFrame) k :
  series_get (groupby_month_mean col df) k
  = mean_or_nan (map col (filter (fun r => strftime_B (date r) = k) df)).
Proof.
  unfold groupby_month_mean.
  rewrite series_get_means, groupby_month_get.
  destruct (map col (filter _ df)); reflexivity.
Qed.

(** [reindex] keeps the value of every label it is given. *)
Lemma series_get_reindex (s : Series) (labels : list string) k :
  In k labels -> series_get (reindex s labels) k = series_get s k.
Proof.
  unfold reindex. induction labels as [|l labels IH]; [intros []|].
  intros Hin. unfold series_get at 1. cbn.
  destruct (String.eqb_spec l k) as [->|Hne]; [reflexivity|].
  destruct Hin as [E|Hin]; [contradiction|]. exact (IH Hin).
Qed.

Lemma reindex_labels (s : Series) (labels : list string) :
  map fst (reindex s labels) = labels.
Proof.
  unfold reindex. rewrite map_map. cbn. apply map_id.
Qed.

Lemma filter_month_key (df : DataFrame) (m : Z) :
  1 <= m <= 12 ->
  filter (fun r => strftime_B (date r) = month_name m) df
  = filter (fun r => month_of (date r) = m) df.
Proof.
  intros Hm. apply list_filter_iff. intros r. apply strftime_B_key, Hm.
Qed.

(** The expression of lines 94 and 99 (and of lines 164-165 for the cost
    column): at the label of month [m] the reindexed mean series holds the
    mean of the column over the rows dated in month [m] of any year, and
    NaN when there is no such row. *)
Lemma reindex_groupby_mean_bucket (col : Row -> Q) (df : DataFrame) (m : Z) :
  1 <= m <= 12 ->
  series_get (reindex (groupby_month_mean col df) months_order) (month_name m)
  = mean_or_nan (bucket col df m).
Proof.
  intros Hm.
  rewrite series_get_reindex by (apply month_name_in, Hm).
  rewrite series_get_groupby_mean, filter_month_key by exact Hm.
  reflexivity.
Qed.

(** The reindexed series has the twelve month labels, January first. *)
Lemma reindex_twelve (s : Series) :
  map fst (reindex s months_order) = months_order
  /\ length (reindex s months_order) = 12%nat.
Proof.
  split; [apply reindex_labels|]. unfold reindex. rewrite length_map. reflexivity.
Qed.

End Seasonality.

(** ** The seasonality statements *)

Section SeasonalityStatements.

Implicit Types (df : DataFrame) (g : gmap string pyval).

(** Lines 94-99 complete; they bind [monthly_usage] and [months_order] and
    leave [monthly_cost] unbound. *)
Lemma seasonality_usage_ok df :
  exists g,
    seasonality_usage df = Ok g
    /\ g !! "monthly_usage"
       = Some (VSeries (reindex (groupby_month_mean usage_kwh df) months_order))
    /\ g !! "months_order" = Some (VList months_order)
    /\ g !! "monthly_cost" = None.
Proof.
  eexists. split; [reflexivity|]. repeat split.
Qed.

Lemma seasonality_split df :
  seasonality df
  = (g ← seasonality_usage df; g ← stmt_108 g; g ← stmt_164 df g; stmt_165 g).
Proof. reflexivity. Qed.

(** Line 108 with [monthly_usage] bound and [monthly_cost] not. *)
Lemma stmt_108_unbound g (v : pyval) :
  g !! "monthly_usage" = Some v -> g !! "monthly_cost" = None ->
  stmt_108 g = Raise (NameError "monthly_cost").
Proof.
  intros Hu Hc. unfold stmt_108, load_name. rewrite Hu, Hc. reflexivity.
Qed.

(** The seasonality statements raise at line 108 on every data frame. *)
Lemma seasonality_raises df :
  seasonality df = Raise (NameError "monthly_cost").
Proof.
  destruct (seasonality_usage_ok df) as (g & Hg & Hu & _ & Hc).
  rewrite seasonality_split, Hg. cbn.
  rewrite (stmt_108_unbound g _ Hu Hc). reflexivity.
Qed.

(** Line 108 in a namespace where the three names it reads are bound to
    values of the expected kind. *)
Lemma stmt_108_bound g (u c : Series) (labels : list string) :
  g !! "monthly_usage" = Some (VSeries u) ->
  g !! "monthly_cost" = Some (VSeries c) ->
  g !! "months_order" = Some (VList labels) ->
  stmt_108 g
  = Ok (<["monthly_usage_cost" := VFrame (usage_cost_frame u c labels)]> g).
Proof.
  intros Hu Hc Ho. unfold stmt_108, load_name. rewrite Hu, Hc, Ho. reflexivity.
Qed.

(** The frame constructor on the two reindexed mean series: twelve rows,
    labelled January to December, row [m] holding the two bucket means or
    NaN. *)
Lemma usage_cost_frame_rows df :
  let u := reindex (groupby_month_mean usage_kwh df) months_order in
  let c := reindex (groupby_month_mean daily_cost df) months_order in
  let frame := usage_cost_frame u c months_order in
  length frame = 12%nat
  /\ map Month frame = months_order
  /\ forall m : Z, 1 <= m <= 12 ->
       frame !! Z.to_nat (m - 1)
       = Some {| Month := month_name m;
                 Usage_kWh := mean_or_nan (bucket usage_kwh df m);
                 Cost_USD := mean_or_nan (bucket daily_cost df m) |}.
Proof.
  intros u c frame. split; [reflexivity|]. split; [reflexivity|].
  intros m Hm. unfold frame, usage_cost_frame.
  rewrite list_lookup_fmap.
  assert (Hl : months_order !! Z.to_nat (m - 1) = Some (month_name m)).
  { unfold month_name.
    destruct (lookup_lt_is_Some_2 months_order (Z.to_nat (m - 1))) as [x Hx].
    - change (length months_order) with 12%nat. lia.
    - rewrite (nth_lookup_Some _ _ EmptyString _ Hx). exact Hx. }
  rewrite Hl.
  change (Some {| Month := month_name m;
                  Usage_kWh := series_get u (month_name m);
                  Cost_USD := series_get c (month_name m) |}
          = Some {| Month := month_name m;
                    Usage_kWh := mean_or_nan (bucket usage_kwh df m);
                    Cost_USD := mean_or_nan (bucket daily_cost df m) |}).
  unfold u, c.
  rewrite !reindex_groupby_mean_bucket by exact Hm. reflexivity.
Qed.

(** When lines 36-37 and 53-73 complete, the run ends at line 108. *)
Lemma dashboard_nonempty df (files : gmap string LinearRegression) :
  df <> [] ->
  exists files',
    dashboard df files = (files', Raise (NameError "monthly_cost"))
    /\ models_present files' = true.
Proof.
  intros Hdf.
  destruct (train_if_missing_nonempty df files Hdf) as [files' Ht].
  pose proof (train_if_missing_present _ _ _ _ Ht) as Hp.
  destruct (date_max_nonempty df Hdf) as [d Hd].
  destruct (forecast_ninety_ok df files' d Hd Hp) as [fdf Hf].
  exists files'. split; [|exact Hp].
  unfold dashboard, forecast_section. rewrite Ht, Hf. cbn -[seasonality].
  rewrite seasonality_raises. reflexivity.
Qed.

(** No run of the script returns a result. *)
Lemma dashboard_never_ok df (files : gmap string LinearRegression)
    (r : ForecastFrame * gmap string pyval) :
  (dashboard df files).2 <> Ok r.
Proof.
  unfold dashboard.
  destruct (train_if_missing df files) as [[t files']|e]; [|discriminate].
  cbn -[seasonality]. destruct (forecast_section df files'); [|discriminate].
  cbn -[seasonality]. rewrite seasonality_raises. discriminate.
Qed.

End SeasonalityStatements.

(** ** Claims on the seasonality *)

(** C2, on the code.  Lines 94-99 complete on every data frame and bind
    [monthly_usage] to the series that holds, at each month, the mean of
    [usage_kwh] over the rows dated in that month of any year.  The
    statement after them, line 108, reads [monthly_cost], which is bound
    only at line 164: it raises NameError, no mean of [daily_cost] is
    computed or reported, and the run of the script on the three January
    rows of [df_a] ends with that error. *)
Theorem C2_monthly_cost_read_before_bound (df : DataFrame) :
  (exists (g : gmap string pyval) (u : Series),
     seasonality_usage df = Ok g
     /\ g !! "monthly_usage" = Some (VSeries u)
     /\ (forall m : Z, 1 <= m <= 12 ->
           series_get u (month_name m) = mean_or_nan (bucket usage_kwh df m))
     /\ g !! "monthly_cost" = None
     /\ stmt_108 g = Raise (NameError "monthly_cost"))
  /\ seasonality df = Raise (NameError "monthly_cost")
  /\ (dashboard df_a ∅).2 = Raise (NameError "monthly_cost").
Proof.
  split; [|split; [apply seasonality_raises|vm_compute; reflexivity]].
  destruct (seasonality_usage_ok df) as (g & Hg & Hu & _ & Hc).
  exists g, (reindex (groupby_month_mean usage_kwh df) months_order).
  split; [exact Hg|]. split; [exact Hu|]. split.
  - intros m Hm. apply reindex_groupby_mean_bucket, Hm.
  - split; [exact Hc|]. exact (stmt_108_unbound g _ Hu Hc).
Qed.

Lemma C2_monthly_cost_read_before_bound_witness :
  1 <= 1 <= 12
  /\ exists (g : gmap string pyval) (u : Series),
       seasonality_usage df_two_years = Ok g
       /\ g !! "monthly_usage" = Some (VSeries u)
       /\ series_get u "January" = Some (Qmean [10; 20])%Q
       /\ series_get u "February" = Some (Qmean [7])%Q
       /\ stmt_108 g = Raise (NameError "monthly_cost").
Proof.
  assert (H1 : 1 <= 1 <= 12) by lia.
  assert (H2 : 1 <= 2 <= 12) by lia.
  split; [exact H1|].
  destruct (C2_monthly_cost_read_before_bound df_two_years)
    as ((g & u & Hg & Hu & Hm & _ & H108) & _).
  exists g, u. split; [exact Hg|]. split; [exact Hu|].
  split; [exact (Hm 1 H1)|]. split; [exact (Hm 2 H2)|exact H108].
Defined.

(** C5, on the code.  No run returns a seasonality result, of twelve
    entries or any other size: on every data frame with a row, whatever
    the model files, the run reaches line 108 and raises NameError on
    [monthly_cost]; on the empty frame it raises earlier. *)
Theorem C5_no_seasonality_frame
    (df : DataFrame) (files : gmap string LinearRegression) :
  (forall r : ForecastFrame * gmap string pyval, (dashboard df files).2 <> Ok r)
  /\ (df <> [] -> (dashboard df files).2 = Raise (NameError "monthly_cost")).
Proof.
  split; [intros r; apply dashboard_never_ok|].
  intros Hdf. destruct (dashboard_nonempty df files Hdf) as (files' & -> & _).
  reflexivity.
Qed.

Lemma C5_no_seasonality_frame_witness :
  df_falling <> []
  /\ (dashboard df_falling ∅).2 = Raise (NameError "monthly_cost").
Proof.
  assert (H : df_falling <> []) by discriminate.
  split; [exact H|].
  exact (proj2 (C5_no_seasonality_frame df_falling ∅) H).
Defined.

(** * Further properties *)

(** ** Sums of rationals *)

Section Sums.

Context {A : Type}.
Implicit Types (f g : A -> Q) (l : list A).

Lemma fold_left_Qplus (l : list Q) (a : Q) :
  (fold_left Qplus l a == a + Qsum l)%Q.
Proof.
  unfold Qsum. revert a. induction l as [|x l IH]; intros a; cbn.
  - ring.
  - rewrite (IH (a + x)%Q), (IH (0 + x)%Q). ring.
Qed.

Lemma Qsum_cons (x : Q) (l : list Q) : (Qsum (x :: l) == x + Qsum l)%Q.
Proof. unfold Qsum at 1. cbn. rewrite fold_left_Qplus. ring. Qed.

Lemma Qsum_map_ext f g l :
  (forall a, In a l -> (f a == g a)%Q) ->
  (Qsum (map f l) == Qsum (map g l))%Q.
Proof.
  induction l as [|a l IH]; intros H; [reflexivity|].
  assert (Ha : (f a == g a)%Q) by (apply H; left; reflexivity).
  assert (Hl : (Qsum (map f l) == Qsum (map g l))%Q).
  { apply IH. intros b Hb. apply H. right. exact Hb. }
  cbn [map]. rewrite !Qsum_cons, Ha, Hl. reflexivity.
Qed.

Lemma Qsum_map_plus f g l :
  (Qsum (map (fun a => f a + g a) l) == Qsum (map f l) + Qsum (map g l))%Q.
Proof.
  induction l as [|a l IH]; [reflexivity|].
  cbn [map]. rewrite !Qsum_cons, IH. ring.
Qed.

Lemma Qsum_map_scale (c : Q) f l :
  (Qsum (map (fun a => c * f a) l) == c * Qsum (map f l))%Q.
Proof.
  induction l as [|a l IH]; [cbn; ring|].
  cbn [map]. rewrite !Qsum_cons, IH. ring.
Qed.

Lemma Qsum_map_const (c : Q) l :
  (Qsum (map (fun _ => c) l) == inject_Z (Z.of_nat (length l)) * c)%Q.
Proof.
  induction l as [|a l IH]; [cbn; ring|].
  cbn [map length]. rewrite Qsum_cons, IH, Nat2Z.inj_succ.
  unfold Z.succ. rewrite inject_Z_plus. ring.
Qed.

Lemma Qsum_map_nonneg f l :
  (forall a, In a l -> (0 <= f a)%Q) -> (0 <= Qsum (map f l))%Q.
Proof.
  induction l as [|a l IH]; intros H; [cbn; apply Qle_refl|].
  cbn [map]. rewrite Qsum_cons.
  apply (Qplus_le_compat 0 (f a) 0 (Qsum (map f l))).
  - apply H. left. reflexivity.
  - apply IH. intros b Hb. apply H. right. exact Hb.
Qed.

Lemma Qsquare_nonneg (q : Q) : (0 <= q * q)%Q.
Proof. unfold Qle, Qmult. cbn. nia. Qed.

Lemma Qsquare_zero (q : Q) : (q * q == 0)%Q -> (q == 0)%Q.
Proof.
  intros H. destruct (Qeq_dec q 0) as [E|E]; [exact E|].
  apply Qmult_integral in H. destruct H; assumption.
Qed.

(** A sum of squares is zero only if every term is. *)
Lemma Qsum_squares_zero f l :
  (Qsum (map (fun a => f a * f a) l) == 0)%Q ->
  forall a, In a l -> (f a == 0)%Q.
Proof.
  induction l as [|b l IH]; intros H a Hin; [destruct Hin|].
  cbn [map] in H. rewrite Qsum_cons in H.
  assert (Hb : (0 <= f b * f b)%Q) by apply Qsquare_nonneg.
  assert (Hl : (0 <= Qsum (map (fun a => f a * f a) l))%Q).
  { apply Qsum_map_nonneg. intros c _. apply Qsquare_nonneg. }
  assert (Hb0 : (f b * f b == 0)%Q).
  { apply Qle_antisym; [|exact Hb].
    rewrite <- H. rewrite <- (Qplus_0_r (f b * f b)) at 1.
    apply Qplus_le_compat; [apply Qle_refl|exact Hl]. }
  destruct Hin as [<-|Hin]; [apply Qsquare_zero, Hb0|].
  apply IH; [|exact Hin].
  rewrite Hb0 in H. rewrite <- H. ring.
Qed.

End Sums.

(** ** Least squares *)

Section LeastSquares.

Local Open Scope Q_scope.

Implicit Types (X : list Z) (y : list Q) (m : LinearRegression).

Lemma Qis_zero_spec (q : Q) : Qis_zero q = true <-> q == 0.
Proof.
  unfold Qis_zero, Qeq. cbn. rewrite Z.eqb_eq. lia.
Qed.

Lemma zip_with_map_map {B C : Type} (F : Q -> Q -> Q) (f : B -> Q) (g : C -> Q)
    (l : list B) (k : list C) :
  zip_with F (map f l) (map g k) = zip_with (fun a b => F (f a) (g b)) l k.
Proof.
  revert k. induction l as [|a l IH]; intros [|b k]; cbn; try reflexivity.
  rewrite IH. reflexivity.
Qed.

Lemma zip_with_map_l {B : Type} (F : Q -> Q -> Q) (f : B -> Q)
    (l : list B) (k : list Q) :
  zip_with F (map f l) k = zip_with (fun a b => F (f a) b) l k.
Proof.
  revert k. induction l as [|a l IH]; intros [|b k]; cbn; try reflexivity.
  rewrite IH. reflexivity.
Qed.

(** [fit] in terms of the centred sums. *)
Lemma fit_ok X y :
  X <> [] ->
  fit X y
  = Ok {| coef_ := if Qis_zero (centred_sxx X) then 0
                   else centred_sxy X y / centred_sxx X;
          intercept_ :=
            Qmean y - Qmean (map inject_Z X)
                      * (if Qis_zero (centred_sxx X) then 0
                         else centred_sxy X y / centred_sxx X);
          rank_ := if Qis_zero (centred_sxx X) then 0%nat else 1%nat;
          n_features_in_ := 1 |}.
Proof.
  intros HX. unfold fit, centred_sxx, centred_sxy.
  destruct X as [|x X]; [congruence|]. cbv beta iota zeta.
  rewrite zip_with_map_map, zip_with_map_l, !map_map. reflexivity.
Qed.

(** The attributes of a fitted model in terms of the centred sums. *)
Lemma fit_inv X y m :
  fit X y = Ok m ->
  X <> []
  /\ coef_ m = (if Qis_zero (centred_sxx X) then 0
                else centred_sxy X y / centred_sxx X)
  /\ intercept_ m = Qmean y - Qmean (map inject_Z X) * coef_ m
  /\ rank_ m = (if Qis_zero (centred_sxx X) then 0%nat else 1%nat).
Proof.
  intros Hfit.
  assert (HX : X <> []) by (intros ->; discriminate Hfit).
  rewrite (fit_ok X y HX) in Hfit. injection Hfit as <-.
  repeat split. exact HX.
Qed.

Lemma sum_over_samples X y (h : Z -> Q) :
  length X = length y ->
  Qsum (map h X) = Qsum (map (fun p : Z * Q => h p.1) (zip X y)).
Proof.
  intros Hlen. rewrite <- (fst_zip X y) at 1 by lia.
  rewrite map_map. reflexivity.
Qed.

Lemma sum_over_samples_r X y (h : Q -> Q) :
  length X = length y ->
  Qsum (map h y) = Qsum (map (fun p : Z * Q => h p.2) (zip X y)).
Proof.
  intros Hlen. rewrite <- (snd_zip X y) at 1 by lia.
  rewrite map_map. reflexivity.
Qed.

Lemma zip_with_samples X y (F : Z -> Q -> Q) :
  zip_with F X y = map (fun p : Z * Q => F p.1 p.2) (zip X y).
Proof.
  revert y. induction X as [|x X IH]; intros [|v y]; cbn; try reflexivity.
  rewrite IH. reflexivity.
Qed.

Lemma length_nonzero {B : Type} (l : list B) :
  l <> [] -> ~ inject_Z (Z.of_nat (length l)) == 0.
Proof.
  intros Hl H. destruct l as [|b l]; [congruence|].
  unfold Qeq in H. cbn in H. lia.
Qed.

Lemma Qmean_sum (l : list Q) :
  l <> [] -> Qsum l == inject_Z (Z.of_nat (length l)) * Qmean l.
Proof.
  intros Hl. unfold Qmean. field. apply length_nonzero, Hl.
Qed.

(** Deviations from the mean sum to zero. *)
Lemma Qsum_centred (l : list Q) :
  l <> [] -> Qsum (map (fun v => v - Qmean l) l) == 0.
Proof.
  intros Hl.
  change (fun v => v - Qmean l) with (fun v => (fun v => v) v + (fun _ => - Qmean l) v).
  rewrite Qsum_map_plus, Qsum_map_const, map_id, (Qmean_sum l Hl). ring.
Qed.

Lemma In_zip_l X y (p : Z * Q) : In p (zip X y) -> In p.1 X.
Proof.
  intros H. apply list_elem_of_In. apply list_elem_of_In in H.
  destruct p as [x v]. exact (elem_of_zip_l _ _ _ _ H).
Qed.

(** The centred normal equation: [sxy - coef * sxx] is zero, also in the
    degenerate case, where both sums are zero. *)
Lemma centred_normal X y :
  centred_sxy X y
  - (if Qis_zero (centred_sxx X) then 0 else centred_sxy X y / centred_sxx X)
    * centred_sxx X == 0.
Proof.
  destruct (Qis_zero (centred_sxx X)) eqn:Hz.
  - apply Qis_zero_spec in Hz.
    assert (Hx : forall x, In x X -> inject_Z x - Qmean (map inject_Z X) == 0).
    { apply (Qsum_squares_zero (fun x => inject_Z x - Qmean (map inject_Z X))).
      exact Hz. }
    unfold centred_sxy. rewrite zip_with_samples.
    rewrite (Qsum_map_ext _ (fun _ => 0)).
    + rewrite Qsum_map_const, Hz. ring.
    + intros p Hp. cbn beta. rewrite (Hx _ (In_zip_l _ _ _ Hp)). ring.
  - assert (Hnz : ~ centred_sxx X == 0).
    { intros H. apply Qis_zero_spec in H. congruence. }
    field. exact Hnz.
Qed.

Lemma residual_centred (c xb yb : Q) (x : Z) (v : Q) :
  residual c (yb - xb * c) x v == (v - yb) + (- c) * (inject_Z x - xb).
Proof. unfold residual. ring. Qed.

(** The normal equations of the fitted line: the residuals sum to zero and
    are orthogonal to the ordinals. *)
Lemma fit_normal_equations X y m :
  fit X y = Ok m -> length X = length y ->
  Qsum (zip_with (residual (coef_ m) (intercept_ m)) X y) == 0
  /\ Qsum (zip_with (fun x v => residual (coef_ m) (intercept_ m) x v * inject_Z x)
                    X y) == 0.
Proof.
  intros Hfit Hlen.
  apply fit_inv in Hfit as (HX & Hc & Hi & _).
  assert (Hy : y <> []) by (destruct y, X; cbn in Hlen; congruence).
  pose proof (centred_normal X y) as Hn. rewrite <- Hc in Hn.
  set (c := coef_ m) in *. rewrite Hi. clearbody c. clear Hc Hi m.
  set (xb := Qmean (map inject_Z X)) in *. set (yb := Qmean y).
  assert (Sy : Qsum (map (fun p : Z * Q => p.2 - yb) (zip X y)) == 0).
  { rewrite <- (sum_over_samples_r X y (fun v => v - yb) Hlen).
    apply Qsum_centred, Hy. }
  assert (Sx : Qsum (map (fun p : Z * Q => inject_Z p.1 - xb) (zip X y)) == 0).
  { rewrite <- (sum_over_samples X y (fun x => inject_Z x - xb) Hlen).
    rewrite <- (map_map inject_Z (fun q => q - xb)).
    apply Qsum_centred. destruct X; [congruence|discriminate]. }
  assert (Sr : Qsum (map (fun p : Z * Q => residual c (yb - xb * c) p.1 p.2)
                         (zip X y)) == 0).
  { rewrite (Qsum_map_ext _ (fun p => (fun p : Z * Q => p.2 - yb) p
                                      + (fun p : Z * Q =>
                                           (- c) * (inject_Z p.1 - xb)) p))
      by (intros p _; apply residual_centred).
    rewrite Qsum_map_plus, Qsum_map_scale, Sy, Sx. ring. }
  assert (Sxx : Qsum (map (fun p : Z * Q => (inject_Z p.1 - xb) * (inject_Z p.1 - xb))
                          (zip X y)) == centred_sxx X).
  { unfold centred_sxx. fold xb.
    rewrite (sum_over_samples X y
               (fun x => (inject_Z x - xb) * (inject_Z x - xb)) Hlen).
    reflexivity. }
  assert (Sxy : Qsum (map (fun p : Z * Q => (inject_Z p.1 - xb) * (p.2 - yb))
                          (zip X y)) == centred_sxy X y).
  { unfold centred_sxy. rewrite zip_with_samples. reflexivity. }
  assert (Src : Qsum (map (fun p : Z * Q =>
                             residual c (yb - xb * c) p.1 p.2 * (inject_Z p.1 - xb))
                          (zip X y)) == 0).
  { rewrite (Qsum_map_ext _ (fun p => (fun p : Z * Q =>
                                         (inject_Z p.1 - xb) * (p.2 - yb)) p
                                      + (fun p : Z * Q =>
                                           (- c) * ((inject_Z p.1 - xb)
                                                    * (inject_Z p.1 - xb))) p)).
    - rewrite Qsum_map_plus, Qsum_map_scale, Sxx, Sxy. rewrite <- Hn. ring.
    - intros p _. cbn beta. rewrite residual_centred. ring. }
  rewrite !zip_with_samples. split; [exact Sr|].
  rewrite (Qsum_map_ext _ (fun p => (fun p : Z * Q =>
                                       residual c (yb - xb * c) p.1 p.2
                                       * (inject_Z p.1 - xb)) p
                                    + (fun p : Z * Q =>
                                         xb * residual c (yb - xb * c) p.1 p.2) p))
    by (intros p _; cbn beta; ring).
  rewrite Qsum_map_plus, Qsum_map_scale, Src, Sr. ring.
Qed.

Lemma sse_samples (a b : Q) X y :
  sse a b X y
  = Qsum (map (fun p : Z * Q => residual a b p.1 p.2 * residual a b p.1 p.2)
              (zip X y)).
Proof. unfold sse. rewrite zip_with_samples. reflexivity. Qed.

Lemma sse_nonneg (a b : Q) X y : 0 <= sse a b X y.
Proof.
  rewrite sse_samples. apply Qsum_map_nonneg. intros p _. apply Qsquare_nonneg.
Qed.

(** The squared error of any line is that of the fitted line plus the
    squared distance between the two lines over the samples. *)
Lemma sse_decompose X y m (a b : Q) :
  fit X y = Ok m -> length X = length y ->
  sse a b X y
  == sse (coef_ m) (intercept_ m) X y
     + Qsum (map (fun p : Z * Q =>
                    ((coef_ m - a) * inject_Z p.1 + (intercept_ m - b))
                    * ((coef_ m - a) * inject_Z p.1 + (intercept_ m - b)))
                 (zip X y)).
Proof.
  intros Hfit Hlen.
  destruct (fit_normal_equations X y m Hfit Hlen) as [Sr Srx].
  rewrite !zip_with_samples in Sr, Srx. rewrite !sse_samples.
  set (c := coef_ m) in *. set (i := intercept_ m) in *.
  rewrite (Qsum_map_ext
             (fun p : Z * Q => residual a b p.1 p.2 * residual a b p.1 p.2)
             (fun p => (fun p : Z * Q => residual c i p.1 p.2 * residual c i p.1 p.2) p
                       + ((fun p : Z * Q =>
                             (2 * (c - a)) * (residual c i p.1 p.2 * inject_Z p.1)) p
                          + ((fun p : Z * Q => (2 * (i - b)) * residual c i p.1 p.2) p
                             + (fun p : Z * Q =>
                                  ((c - a) * inject_Z p.1 + (i - b))
                                  * ((c - a) * inject_Z p.1 + (i - b))) p))))
    by (intros p _; unfold residual; ring).
  rewrite !Qsum_map_plus, !Qsum_map_scale, Sr, Srx. ring.
Qed.

(** Samples that lie on a line, at two distinct ordinals or more, give
    back that line. *)
Lemma fit_recovers_line X y m (a b : Q) :
  fit X y = Ok m -> length X = length y ->
  (forall (x : Z) (v : Q), In (x, v) (zip X y) -> v == inject_Z x * a + b) ->
  (exists x1 x2 : Z, In x1 X /\ In x2 X /\ x1 <> x2) ->
  coef_ m == a /\ intercept_ m == b.
Proof.
  intros Hfit Hlen Hline (x1 & x2 & H1 & H2 & Hne).
  assert (Hzero : sse a b X y == 0).
  { rewrite sse_samples. rewrite (Qsum_map_ext _ (fun _ => 0)).
    - rewrite Qsum_map_const. ring.
    - intros [x v] Hp. cbn [fst snd]. unfold residual.
      rewrite (Hline x v Hp). ring. }
  pose proof (sse_decompose X y m a b Hfit Hlen) as Hd.
  rewrite Hzero in Hd.
  assert (Hdist : Qsum (map (fun p : Z * Q =>
                    ((coef_ m - a) * inject_Z p.1 + (intercept_ m - b))
                    * ((coef_ m - a) * inject_Z p.1 + (intercept_ m - b)))
                 (zip X y)) == 0).
  { apply Qle_antisym.
    - rewrite Hd. rewrite <- (Qplus_0_l (Qsum _)) at 1.
      apply Qplus_le_compat; [apply sse_nonneg|apply Qle_refl].
    - apply Qsum_map_nonneg. intros p _. apply Qsquare_nonneg. }
  pose proof (Qsum_squares_zero
                (fun p : Z * Q => (coef_ m - a) * inject_Z p.1 + (intercept_ m - b))
                (zip X y) Hdist) as Hall.
  assert (Hat : forall x, In x X ->
                  (coef_ m - a) * inject_Z x + (intercept_ m - b) == 0).
  { intros x Hx. apply list_elem_of_In, list_elem_of_lookup in Hx as [k Hk].
    destruct (lookup_lt_is_Some_2 y k) as [v Hv].
    { rewrite <- Hlen. apply (lookup_lt_Some _ _ _ Hk). }
    apply (Hall (x, v)). apply list_elem_of_In, list_elem_of_lookup.
    exists k. apply lookup_zip_with_Some. exists x, v. auto. }
  pose proof (Hat x1 H1) as E1. pose proof (Hat x2 H2) as E2.
  assert (Hdx : ~ inject_Z x1 - inject_Z x2 == 0).
  { intros H. apply Hne. unfold Qeq in H. cbn in H. lia. }
  assert (Hc : coef_ m - a == 0).
  { assert (Hprod : (coef_ m - a) * (inject_Z x1 - inject_Z x2) == 0).
    { transitivity (((coef_ m - a) * inject_Z x1 + (intercept_ m - b))
                    - ((coef_ m - a) * inject_Z x2 + (intercept_ m - b)));
        [ring|].
      rewrite E1, E2. ring. }
    apply Qmult_integral in Hprod. destruct Hprod; [assumption|contradiction]. }
  split.
  - rewrite <- (Qplus_0_l a), <- Hc. ring.
  - rewrite Hc in E1. rewrite <- (Qplus_0_l b), <- E1. ring.
Qed.

(** A column of ordinals that are all the same: the centred sum of squares
    is zero, so [fit] takes the minimum-norm branch. *)
Lemma fit_single_ordinal X y (x0 : Z) :
  X <> [] -> (forall x, In x X -> x = x0) ->
  exists m,
    fit X y = Ok m /\ coef_ m = 0 /\ rank_ m = 0%nat
    /\ intercept_ m == Qmean y.
Proof.
  intros HX Hall.
  assert (Hmean : Qmean (map inject_Z X) == inject_Z x0).
  { unfold Qmean. rewrite (Qsum_map_ext inject_Z (fun _ => inject_Z x0)).
    - rewrite Qsum_map_const, length_map. field. apply length_nonzero, HX.
    - intros x Hx. rewrite (Hall x Hx). reflexivity. }
  assert (Hz : Qis_zero (centred_sxx X) = true).
  { apply Qis_zero_spec. unfold centred_sxx.
    rewrite (Qsum_map_ext _ (fun _ => 0)).
    - rewrite Qsum_map_const. ring.
    - intros x Hx. cbn beta. rewrite Hmean, (Hall x Hx). ring. }
  eexists. split; [apply (fit_ok X y HX)|]. cbn [coef_ intercept_ rank_].
  rewrite Hz. repeat split. ring.
Qed.

(** Two distinct ordinals make the centred sum of squares non-zero. *)
Lemma centred_sxx_nonzero X (x1 x2 : Z) :
  In x1 X -> In x2 X -> x1 <> x2 -> Qis_zero (centred_sxx X) = false.
Proof.
  intros H1 H2 Hne. destruct (Qis_zero (centred_sxx X)) eqn:Hz; [|reflexivity].
  apply Qis_zero_spec in Hz.
  pose proof (Qsum_squares_zero
                (fun x => inject_Z x - Qmean (map inject_Z X)) X Hz) as Hall.
  pose proof (Hall x1 H1) as E1. pose proof (Hall x2 H2) as E2. cbn beta in *.
  assert (E : inject_Z x1 == inject_Z x2).
  { transitivity (inject_Z x1 - Qmean (map inject_Z X)
                  - (inject_Z x2 - Qmean (map inject_Z X)) + inject_Z x2); [ring|].
    rewrite E1, E2. ring. }
  unfold Qeq in E. cbn in E. lia.
Qed.

End LeastSquares.

(** ** Properties of the fitted models *)

(** X1.  The model [fit] returns minimises the sum of squared residuals:
    over samples with as many values as ordinals, no line has a smaller
    squared error than the fitted one. *)
Theorem X1_fit_least_squares
    (X : list Z) (y : list Q) (m : LinearRegression) (a b : Q) :
  fit X y = Ok m -> length X = length y ->
  (sse (coef_ m) (intercept_ m) X y <= sse a b X y)%Q.
Proof.
  intros Hfit Hlen. rewrite (sse_decompose X y m a b Hfit Hlen).
  rewrite <- (Qplus_0_r (sse (coef_ m) (intercept_ m) X y)) at 1.
  apply Qplus_le_compat; [apply Qle_refl|].
  apply Qsum_map_nonneg. intros p _. apply Qsquare_nonneg.
Qed.

Lemma X1_fit_least_squares_witness :
  exists m,
    fit X_scatter y_scatter = Ok m
    /\ (sse (coef_ m) (intercept_ m) X_scatter y_scatter
        <= sse 1 1 X_scatter y_scatter)%Q.
Proof.
  destruct (fit X_scatter y_scatter) as [m|e] eqn:Hfit; [|discriminate Hfit].
  exists m. split; [reflexivity|].
  apply (X1_fit_least_squares X_scatter y_scatter m 1 1 Hfit). reflexivity.
Defined.

(** X2.  The fitted line satisfies the normal equations: its residuals
    over the samples sum to zero, and so do the residuals weighted by the
    ordinals.  The line passes through the point of the two means. *)
Theorem X2_fit_normal_equations
    (X : list Z) (y : list Q) (m : LinearRegression) :
  fit X y = Ok m -> length X = length y ->
  (Qsum (zip_with (residual (coef_ m) (intercept_ m)) X y) == 0)%Q
  /\ (Qsum (zip_with (fun x v => residual (coef_ m) (intercept_ m) x v * inject_Z x)
                     X y) == 0)%Q
  /\ (Qmean (map inject_Z X) * coef_ m + intercept_ m == Qmean y)%Q.
Proof.
  intros Hfit Hlen.
  destruct (fit_normal_equations X y m Hfit Hlen) as [Sr Srx].
  split; [exact Sr|]. split; [exact Srx|].
  apply fit_inv in Hfit as (_ & _ & -> & _). ring.
Qed.

Lemma X2_fit_normal_equations_witness :
  exists m,
    fit X_scatter y_scatter = Ok m
    /\ (Qsum (zip_with (residual (coef_ m) (intercept_ m)) X_scatter y_scatter)
        == 0)%Q.
Proof.
  destruct (fit X_scatter y_scatter) as [m|e] eqn:Hfit; [|discriminate Hfit].
  exists m. split; [reflexivity|].
  apply (X2_fit_normal_equations X_scatter y_scatter m Hfit). reflexivity.
Defined.

(** X3.  When every sample lies on one line [a * x + b] and the ordinals
    take at least two distinct values, [fit] returns that line: [coef_] is
    [a], [intercept_] is [b], the rank is 1 and the squared error is
    zero. *)
Theorem X3_fit_recovers_line
    (X : list Z) (y : list Q) (m : LinearRegression) (a b : Q) :
  fit X y = Ok m -> length X = length y ->
  (forall (x : Z) (v : Q), In (x, v) (zip X y) -> (v == inject_Z x * a + b)%Q) ->
  (exists x1 x2 : Z, In x1 X /\ In x2 X /\ x1 <> x2) ->
  (coef_ m == a)%Q /\ (intercept_ m == b)%Q /\ rank_ m = 1%nat
  /\ (sse (coef_ m) (intercept_ m) X y == 0)%Q.
Proof.
  intros Hfit Hlen Hline Hdist.
  destruct (fit_recovers_line X y m a b Hfit Hlen Hline Hdist) as [Hc Hi].
  split; [exact Hc|]. split; [exact Hi|]. split.
  - destruct Hdist as (x1 & x2 & H1 & H2 & Hne).
    apply fit_inv in Hfit as (_ & _ & _ & ->).
    rewrite (centred_sxx_nonzero X x1 x2 H1 H2 Hne). reflexivity.
  - rewrite sse_samples. rewrite (Qsum_map_ext _ (fun _ => 0%Q)).
    + rewrite Qsum_map_const. ring.
    + intros [x v] Hp. cbn [fst snd]. unfold residual.
      rewrite (Hline x v Hp), Hc, Hi. ring.
Qed.

Lemma X3_fit_recovers_line_witness :
  exists m,
    fit X_line y_line = Ok m
    /\ (coef_ m == 2)%Q /\ (intercept_ m == 3)%Q /\ rank_ m = 1%nat.
Proof.
  destruct (fit X_line y_line) as [m|e] eqn:Hfit; [|discriminate Hfit].
  exists m. split; [reflexivity|].
  destruct (X3_fit_recovers_line X_line y_line m 2 3 Hfit) as (Hc & Hi & Hr & _).
  - reflexivity.
  - intros x v Hin. cbn in Hin.
    destruct Hin as [E|[E|[E|[]]]]; injection E as <- <-; reflexivity.
  - exists 10, 11. cbn. split; [auto|]. split; [auto|]. discriminate.
  - split; [exact Hc|]. split; [exact Hi|exact Hr].
Defined.

(** X4.  When all ordinals are the same (a single date, possibly
    repeated), [fit] returns the flat line through the mean: [coef_] is 0,
    [rank_] is 0, [intercept_] is the mean of the values, and [predict]
    gives that mean at every ordinal. *)
Theorem X4_fit_single_date (X : list Z) (y : list Q) (x0 : Z) :
  X <> [] -> (forall x, In x X -> x = x0) ->
  exists m,
    fit X y = Ok m /\ coef_ m = 0%Q /\ rank_ m = 0%nat
    /\ (intercept_ m == Qmean y)%Q
    /\ forall (X' : list Z) (v : Q), In v (predict m X') -> (v == Qmean y)%Q.
Proof.
  intros HX Hall.
  destruct (fit_single_ordinal X y x0 HX Hall) as (m & Hfit & Hc & Hr & Hi).
  exists m. do 4 (split; [assumption|]).
  intros X' v Hv. unfold predict in Hv.
  apply in_map_iff in Hv as (x & <- & _). rewrite Hc, Hi. ring.
Qed.

Lemma X4_fit_single_date_witness :
  exists m,
    fit X_same y_same = Ok m /\ coef_ m = 0%Q /\ rank_ m = 0%nat
    /\ (intercept_ m == 5)%Q.
Proof.
  destruct (X4_fit_single_date X_same y_same 719163)
    as (m & Hfit & Hc & Hr & Hi & _).
  - discriminate.
  - intros x [<-|[<-|[]]]; reflexivity.
  - exists m. split; [exact Hfit|]. split; [exact Hc|]. split; [exact Hr|].
    rewrite Hi. vm_compute. reflexivity.
Defined.

(** ** Training followed by the forecast *)

Section TrainThenForecast.

Implicit Types (df : DataFrame) (files : gmap string LinearRegression).

Lemma lookup_map {B C : Type} (f : B -> C) (l : list B) (k : nat) :
  map f l !! k = f <$> (l !! k).
Proof. exact (list_lookup_fmap f l k). Qed.

(** Every entry of a forecast column is the value of the stored line at
    the date of its row. *)
Lemma forecast_column_line (m : LinearRegression) (dates : list Timestamp)
    (i : nat) (t : Timestamp) (v : Q) :
  dates !! i = Some t ->
  predict m (map toordinal dates) !! i = Some v ->
  v = (coef_ m * inject_Z (toordinal t) + intercept_ m)%Q.
Proof.
  intros Ht Hv. rewrite (predict_lookup m dates i t Ht) in Hv. congruence.
Qed.

(** A run of lines 36-37 with a file absent, followed by lines 53-73: the
    models the forecast loads are the fits of the three columns of the
    frame. *)
Lemma train_then_forecast df files :
  df <> [] -> models_present files = false ->
  exists files' fdf um pm cm,
    train_if_missing df files = Ok (true, files')
    /\ forecast_section df files' = Ok fdf
    /\ fit (map (fun r => toordinal (date r)) df) (map usage_kwh df) = Ok um
    /\ fit (map (fun r => toordinal (date r)) df) (map price_per_kwh df) = Ok pm
    /\ fit (map (fun r => toordinal (date r)) df) (map daily_cost df) = Ok cm
    /\ forecast_usage fdf = predict um (map toordinal (fc_date fdf))
    /\ forecast_price fdf = predict pm (map toordinal (fc_date fdf))
    /\ forecast_cost fdf = predict cm (map toordinal (fc_date fdf)).
Proof.
  intros Hdf Hmiss.
  destruct (train_and_save_models_nonempty df files Hdf) as [files' Ht].
  pose proof Ht as Hinv.
  apply train_and_save_models_inv in Hinv as (um & pm & cm & Fu & Fp & Fc & ->).
  destruct (saved_lookup um pm cm files) as (Lu & Lp & Lc & _).
  destruct (date_max_nonempty df Hdf) as [d Hd].
  destruct (forecast_ninety_ok df (saved um pm cm files) d Hd
              (saved_present um pm cm files)) as [fdf Hf].
  exists (saved um pm cm files), fdf, um, pm, cm.
  split. { rewrite train_if_missing_miss by exact Hmiss. rewrite Ht. reflexivity. }
  split; [exact Hf|]. do 3 (split; [assumption|]).
  apply forecast_periods_inv in Hf
    as (um' & pm' & cm' & _ & Eu & Ep & Ec & _ & _ & Hu & Hp & Hc).
  unfold pickle_load in Eu, Ep, Ec. rewrite Lu in Eu. rewrite Lp in Ep.
  rewrite Lc in Ec. injection Eu as <-. injection Ep as <-. injection Ec as <-.
  repeat split; assumption.
Qed.

(** A column on a line over two distinct dates: the fit of that column
    predicts the line at every date. *)
Lemma fit_column_on_line (col : Row -> Q) df (m : LinearRegression) (a b : Q) :
  fit (map (fun r => toordinal (date r)) df) (map col df) = Ok m ->
  on_line col df a b ->
  (exists r1 r2 : Row, In r1 df /\ In r2 df /\ date r1 <> date r2) ->
  (coef_ m == a)%Q /\ (intercept_ m == b)%Q.
Proof.
  intros Hfit Hline (r1 & r2 & H1 & H2 & Hne).
  apply (fit_recovers_line _ _ m a b Hfit).
  - rewrite !length_map. reflexivity.
  - intros x v Hin.
    apply list_elem_of_In, list_elem_of_lookup in Hin as [k Hk].
    apply lookup_zip_with_Some in Hk as (x' & v' & E & Hx & Hv).
    injection E as <- <-.
    rewrite lookup_map in Hx. rewrite lookup_map in Hv.
    apply fmap_Some in Hx as (r & Hr & ->).
    apply fmap_Some in Hv as (r' & Hr' & ->).
    assert (r' = r) as -> by congruence.
    apply Hline. apply list_elem_of_In, list_elem_of_lookup. exists k. exact Hr.
  - exists (toordinal (date r1)), (toordinal (date r2)).
    split; [apply in_map_iff; exists r1; auto|].
    split; [apply in_map_iff; exists r2; auto|].
    unfold toordinal. lia.
Qed.

End TrainThenForecast.

(** ** Properties of training followed by the forecast *)



(** X6.  Each forecast column is an arithmetic progression: the value of a
    day minus the value of the day before is the [coef_] of the stored
    model of that column. *)
Theorem X6_forecast_steps_by_slope
    (df : DataFrame) (files : gmap string LinearRegression) (d : Timestamp) :
  date_max df = Some d ->
  models_present files = true ->
  exists fdf um pm cm,
    forecast_section df files = Ok fdf
    /\ pickle_load files usage_path = Ok um
    /\ pickle_load files price_path = Ok pm
    /\ pickle_load files cost_path = Ok cm
    /\ (forall (i : nat) (v v' : Q),
          forecast_usage fdf !! i = Some v -> forecast_usage fdf !! S i = Some v' ->
          (v' - v == coef_ um)%Q)
    /\ (forall (i : nat) (v v' : Q),
          forecast_price fdf !! i = Some v -> forecast_price fdf !! S i = Some v' ->
          (v' - v == coef_ pm)%Q)
    /\ (forall (i : nat) (v v' : Q),
          forecast_cost fdf !! i = Some v -> forecast_cost fdf !! S i = Some v' ->
          (v' - v == coef_ cm)%Q).
Proof.
  intros Hd Hp.
  destruct (forecast_ninety_ok df files d Hd Hp) as [fdf Hf].
  pose proof Hf as Hinv.
  apply forecast_periods_inv in Hinv
    as (um & pm & cm & d' & Eu & Ep & Ec & Hd' & Hr & Hu & Hpr & Hc).
  exists fdf, um, pm, cm. do 4 (split; [assumption|]).
  apply date_range_lookup in Hr as [Hlen Hlk].
  assert (Hstep : forall (m : LinearRegression) (i : nat) (v v' : Q),
            predict m (map toordinal (fc_date fdf)) !! i = Some v ->
            predict m (map toordinal (fc_date fdf)) !! S i = Some v' ->
            (v' - v == coef_ m)%Q).
  { intros m i v v' Hv Hv'.
    assert (Hi : (S i < 90)%nat).
    { apply lookup_lt_Some in Hv'.
      rewrite length_predict, length_map, Hlen in Hv'. exact Hv'. }
    assert (Ht : fc_date fdf !! i = Some (d' + 1 + Z.of_nat i))
      by (apply Hlk; split; [lia|reflexivity]).
    assert (Ht' : fc_date fdf !! S i = Some (d' + 1 + Z.of_nat (S i)))
      by (apply Hlk; split; [lia|reflexivity]).
    rewrite (forecast_column_line m _ _ _ _ Ht Hv).
    rewrite (forecast_column_line m _ _ _ _ Ht' Hv').
    unfold toordinal. rewrite Nat2Z.inj_succ. unfold Z.succ.
    rewrite !inject_Z_plus. ring. }
  rewrite Hu, Hpr, Hc. repeat split; apply Hstep.
Qed.

Lemma X6_forecast_steps_by_slope_witness :
  date_max df_falling = Some 1 /\ models_present files_falling = true /\
  exists fdf um v v',
    forecast_section df_falling files_falling = Ok fdf
    /\ pickle_load files_falling usage_path = Ok um
    /\ forecast_usage fdf !! 0%nat = Some v
    /\ forecast_usage fdf !! 1%nat = Some v'
    /\ (v' - v == coef_ um)%Q.
Proof.
  assert (Hd : date_max df_falling = Some 1) by reflexivity.
  assert (Hp : models_present files_falling = true) by (vm_compute; reflexivity).
  split; [exact Hd|]. split; [exact Hp|].
  destruct (X6_forecast_steps_by_slope df_falling files_falling 1 Hd Hp)
    as (fdf & um & pm & cm & Hf & Eu & _ & _ & Hu & _).
  destruct (forecast_usage fdf !! 0%nat) as [v|] eqn:H0;
    [|vm_compute in Hf; injection Hf as <-; discriminate H0].
  destruct (forecast_usage fdf !! 1%nat) as [v'|] eqn:H1;
    [|vm_compute in Hf; injection Hf as <-; discriminate H1].
  exists fdf, um, v, v'. split; [exact Hf|]. split; [exact Eu|].
  split; [exact H0|]. split; [exact H1|].
  exact (Hu 0%nat v v' H0 H1).
Defined.



(** X8.  The forecast dates lie after every date of the frame, whatever
    the order of the rows: no forecast day repeats a day of the history. *)
Theorem X8_forecast_after_history
    (df : DataFrame) (files : gmap string LinearRegression) :
  df <> [] ->
  models_present files = true ->
  exists fdf,
    forecast_section df files = Ok fdf
    /\ forall (r : Row) (t : Timestamp),
         In r df -> In t (fc_date fdf) -> date r < t.
Proof.
  intros Hdf Hp.
  destruct (date_max_nonempty df Hdf) as [d Hd].
  destruct (forecast_ninety_ok df files d Hd Hp) as [fdf Hf].
  exists fdf. split; [exact Hf|].
  apply forecast_periods_inv in Hf
    as (_ & _ & _ & d' & _ & _ & _ & Hd' & Hr & _).
  assert (d' = d) as -> by congruence.
  apply date_range_lookup in Hr as [_ Hlk].
  apply date_max_spec in Hd as [_ Hle].
  intros r t Hr Ht.
  apply list_elem_of_In, list_elem_of_lookup in Ht as [i Hi].
  apply Hlk in Hi as [_ ->].
  assert (date r <= d) by (apply Hle, in_map, Hr). lia.
Qed.

Lemma X8_forecast_after_history_witness :
  df_unsorted <> [] /\ models_present files_a = true /\
  exists fdf,
    forecast_section df_unsorted files_a = Ok fdf
    /\ forall t : Timestamp, In t (fc_date fdf) -> 5 < t.
Proof.
  assert (Hdf : df_unsorted <> []) by discriminate.
  assert (Hp : models_present files_a = true) by (vm_compute; reflexivity).
  split; [exact Hdf|]. split; [exact Hp|].
  destruct (X8_forecast_after_history df_unsorted files_a Hdf Hp) as (fdf & Hf & Ha).
  exists fdf. split; [exact Hf|].
  intros t Ht. apply (Ha (mkRow 5 100 (1 # 10) 10) t); [left; reflexivity|exact Ht].
Defined.

(** ** Properties of the month groups *)

Section Groups.

Implicit Types (groups : list (string * list Q)) (col : Row -> Q)
  (df : DataFrame).

Lemma groups_sorted_lookup groups :
  groups_sorted groups ->
  forall (i j : nat) (a b : string * list Q),
    (i < j)%nat -> groups !! i = Some a -> groups !! j = Some b ->
    String.compare (fst a) (fst b) = Lt.
Proof.
  unfold groups_sorted.
  induction 1 as [|g groups Hs IH Hall]; intros i j a b Hij Hi Hj.
  - rewrite lookup_nil in Hi. discriminate.
  - destruct j as [|j]; [lia|]. cbn in Hj. destruct i as [|i].
    + cbn in Hi. injection Hi as <-.
      exact (proj1 (Forall_lookup _ _) Hall j b Hj).
    + cbn in Hi. apply (IH i j); [lia|assumption..].
Qed.

(** In sorted groups a listed group is the one its key finds. *)
Lemma groups_get_In groups (k : string) (vs : list Q) :
  groups_sorted groups -> In (k, vs) groups -> groups_get groups k = Some vs.
Proof.
  unfold groups_sorted.
  induction 1 as [|g groups Hs IH Hall]; intros Hin; [destruct Hin|].
  rewrite groups_get_cons. destruct Hin as [->|Hin].
  - cbn. rewrite decide_True by reflexivity. reflexivity.
  - destruct (decide (g.1 = k)) as [E|_]; [|exact (IH Hin)].
    exfalso. rewrite Forall_forall in Hall.
    apply list_elem_of_In in Hin. pose proof (Hall _ Hin) as Hlt. cbn in Hlt.
    apply compare_lt_neq in Hlt. contradiction.
Qed.

(** Inserting a value adds one to the total size of the groups. *)
Lemma group_insert_sizes (k : string) (v : Q) groups :
  sum_list (map (fun g : string * list Q => length g.2) (group_insert k v groups))
  = S (sum_list (map (fun g : string * list Q => length g.2) groups)).
Proof.
  induction groups as [|[k' vs] groups IH]; [reflexivity|].
  cbn [group_insert]. destruct (String.compare k k').
  - cbn. rewrite length_app. cbn. lia.
  - reflexivity.
  - cbn [map sum_list sum_list_with]. cbn [map sum_list sum_list_with] in IH.
    rewrite IH. cbn. lia.
Qed.

(** The key of a group is the month name of a row of the frame. *)
Lemma group_key_of_row col df (k : string) (vs : list Q) :
  In (k, vs) (groupby_month col df) ->
  groups_get (groupby_month col df) k = Some vs
  /\ exists r : Row, In r df /\ strftime_B (date r) = k.
Proof.
  intros Hin.
  pose proof (groups_get_In _ k vs (groupby_month_sorted col df) Hin) as Hget.
  split; [exact Hget|].
  rewrite groupby_month_get in Hget.
  destruct (filter (fun r => strftime_B (date r) = k) df) as [|r rows] eqn:Hf;
    [discriminate Hget|].
  assert (Hel : r ∈ filter (fun r => strftime_B (date r) = k) df)
    by (rewrite Hf; left).
  apply list_elem_of_filter in Hel as [Hk Hr].
  exists r. split; [apply list_elem_of_In, Hr|exact Hk].
Qed.

Lemma Qsum_Permutation (l l' : list Q) :
  Permutation l l' -> (Qsum l == Qsum l')%Q.
Proof.
  induction 1 as [|x l l' _ IH|x x' l|l l' l'' _ IH1 _ IH2].
  - reflexivity.
  - rewrite !Qsum_cons, IH. reflexivity.
  - rewrite !Qsum_cons. ring.
  - rewrite IH1. exact IH2.
Qed.

Lemma mean_or_nan_Permutation (l l' : list Q) :
  Permutation l l' -> same_cell (mean_or_nan l) (mean_or_nan l').
Proof.
  intros Hp. destruct l as [|x l], l' as [|x' l']; cbn.
  - exact I.
  - apply Permutation_nil in Hp. discriminate.
  - symmetry in Hp. apply Permutation_nil in Hp. discriminate.
  - unfold Qmean.
    rewrite (Qsum_Permutation _ _ Hp), (Permutation_length Hp). reflexivity.
Qed.

Lemma bucket_Permutation col df df' (m : Z) :
  Permutation df df' -> Permutation (bucket col df m) (bucket col df' m).
Proof.
  intros Hp. unfold bucket. apply Permutation_map.
  exact (filter_Permutation (fun r => month_of (date r) = m) df df' Hp).
Qed.

End Groups.

(** X10.  [groupby] returns the month groups in strictly increasing
    alphabetical order of their keys (April before January), so no key
    occurs twice. *)
Theorem X10_groups_in_alphabetical_order
    (col : Row -> Q) (df : DataFrame) (i j : nat) (a b : string * list Q) :
  (i < j)%nat ->
  groupby_month col df !! i = Some a ->
  groupby_month col df !! j = Some b ->
  String.compare a.1 b.1 = Lt /\ a.1 <> b.1.
Proof.
  intros Hij Hi Hj.
  pose proof (groups_sorted_lookup _ (groupby_month_sorted col df)
                i j a b Hij Hi Hj) as Hlt.
  split; [exact Hlt|]. apply compare_lt_neq, Hlt.
Qed.

Lemma X10_groups_in_alphabetical_order_witness :
  map fst (groupby_month usage_kwh df_months) = ["December"; "January"; "March"]
  /\ String.compare "December" "January" = Lt.
Proof.
  split; [vm_compute; reflexivity|].
  apply (X10_groups_in_alphabetical_order usage_kwh df_months 0 1
           ("December", [50%Q]) ("January", [10%Q; 20%Q])).
  - lia.
  - vm_compute. reflexivity.
  - vm_compute. reflexivity.
Defined.

(** X11.  The groups are the non-empty month buckets: a listed group has
    the name of a month as key and holds the column values of exactly the
    rows dated in that month, of any year, in row order; and every month
    that has a row has its group. *)
Theorem X11_groups_are_month_buckets (col : Row -> Q) (df : DataFrame) :
  (forall (k : string) (vs : list Q),
     In (k, vs) (groupby_month col df) ->
     vs <> [] /\ exists m : Z, 1 <= m <= 12 /\ k = month_name m
                               /\ vs = bucket col df m)
  /\ (forall m : Z, 1 <= m <= 12 -> bucket col df m <> [] ->
        In (month_name m, bucket col df m) (groupby_month col df)).
Proof.
  split.
  - intros k vs Hin.
    pose proof (groups_get_In _ k vs (groupby_month_sorted col df) Hin) as Hget.
    rewrite groupby_month_get in Hget.
    destruct (filter (fun r => strftime_B (date r) = k) df) as [|r rows] eqn:Hf;
      [discriminate Hget|].
    cbn in Hget. injection Hget as <-. split; [discriminate|].
    assert (Hr : strftime_B (date r) = k).
    { assert (Hel : r ∈ filter (fun r => strftime_B (date r) = k) df)
        by (rewrite Hf; left).
      apply list_elem_of_filter in Hel as [Hk _]. exact Hk. }
    exists (month_of (date r)).
    split; [apply month_of_range|]. split; [symmetry; exact Hr|].
    unfold bucket. rewrite <- filter_month_key by apply month_of_range.
    rewrite <- strftime_B_month_name, Hr, Hf. reflexivity.
  - intros m Hm Hne.
    pose proof (groupby_month_get col df (month_name m)) as Hget.
    rewrite filter_month_key in Hget by exact Hm. fold (bucket col df m) in Hget.
    destruct (bucket col df m) as [|v vs] eqn:Hb; [congruence|].
    unfold groups_get in Hget.
    destruct (find _ (groupby_month col df)) as [[k' vs']|] eqn:Hfind;
      [|discriminate Hget].
    apply find_some in Hfind as [Hin Hk]. cbn in Hk, Hget.
    apply String.eqb_eq in Hk. injection Hget as ->. subst k'. exact Hin.
Qed.

Lemma X11_groups_are_month_buckets_witness :
  1 <= 1 <= 12 /\ bucket usage_kwh df_two_years 1 <> []
  /\ In ("January"%string, [10; 20]%Q) (groupby_month usage_kwh df_two_years).
Proof.
  assert (Hm : 1 <= 1 <= 12) by lia.
  assert (Hb : bucket usage_kwh df_two_years 1 <> []) by (vm_compute; discriminate).
  split; [exact Hm|]. split; [exact Hb|].
  exact (proj2 (X11_groups_are_month_buckets usage_kwh df_two_years) 1 Hm Hb).
Defined.

(** X12.  Grouping and reindexing leave no row out: the sizes of the
    groups [groupby] returns add up to the number of rows of the frame,
    and the mean of every group is the cell of its key in the series
    reindexed on the twelve month names. *)
Theorem X12_groups_cover_rows (col : Row -> Q) (df : DataFrame) :
  sum_list (map (fun g : string * list Q => length g.2) (groupby_month col df))
  = length df
  /\ forall (k : string) (vs : list Q),
       In (k, vs) (groupby_month col df) ->
       In k months_order
       /\ series_get (reindex (groupby_month_mean col df) months_order) k
          = Some (Qmean vs).
Proof.
  split.
  - induction df as [|r df IH] using rev_ind; [reflexivity|].
    rewrite groupby_month_snoc, group_insert_sizes, IH, length_app. cbn. lia.
  - intros k vs Hin.
    destruct (group_key_of_row col df k vs Hin) as (Hget & r & _ & Hk).
    assert (Hlabel : In k months_order).
    { rewrite <- Hk, strftime_B_month_name.
      apply month_name_in, month_of_range. }
    split; [exact Hlabel|].
    rewrite series_get_reindex by exact Hlabel.
    unfold groupby_month_mean. rewrite series_get_means, Hget. reflexivity.
Qed.

(** X13.  A cell of the reindexed mean series is NaN exactly when no row
    of the frame is dated in that month; when a row is, the cell is the
    mean of the bucket, also when that mean is zero. *)
Theorem X13_nan_iff_no_row (col : Row -> Q) (df : DataFrame) (m : Z) :
  1 <= m <= 12 ->
  (series_get (reindex (groupby_month_mean col df) months_order) (month_name m)
   = None
   <-> forall r : Row, In r df -> month_of (date r) <> m)
  /\ (forall r : Row, In r df -> month_of (date r) = m ->
        series_get (reindex (groupby_month_mean col df) months_order)
                   (month_name m)
        = Some (Qmean (bucket col df m))).
Proof.
  intros Hm. rewrite (reindex_groupby_mean_bucket col df m Hm).
  assert (Hrow : forall r : Row, In r df -> month_of (date r) = m ->
                   bucket col df m <> []).
  { intros r Hr Hmo Hb. unfold bucket in Hb. apply map_eq_nil in Hb.
    assert (Hel : r ∈ filter (fun r => month_of (date r) = m) df).
    { apply list_elem_of_filter. split; [exact Hmo|apply list_elem_of_In, Hr]. }
    rewrite Hb in Hel. inversion Hel. }
  split; [split|].
  - intros Hnone r Hr Hmo. apply (Hrow r Hr Hmo).
    destruct (bucket col df m); [reflexivity|discriminate Hnone].
  - intros Hno. destruct (bucket col df m) as [|v vs] eqn:Hb; [reflexivity|].
    exfalso. unfold bucket in Hb.
    destruct (filter (fun r => month_of (date r) = m) df) as [|r rows] eqn:Hf;
      [discriminate Hb|].
    assert (Hel : r ∈ filter (fun r => month_of (date r) = m) df)
      by (rewrite Hf; left).
    apply list_elem_of_filter in Hel as [Hmo Hin].
    apply (Hno r); [apply list_elem_of_In, Hin|exact Hmo].
  - intros r Hr Hmo. pose proof (Hrow r Hr Hmo) as Hne.
    destruct (bucket col df m); [congruence|reflexivity].
Qed.

Lemma X13_nan_iff_no_row_witness :
  1 <= 2 <= 12
  /\ series_get (reindex (groupby_month_mean usage_kwh df_months) months_order)
                "February" = None
  /\ series_get (reindex (groupby_month_mean usage_kwh df_months) months_order)
                "January" = Some (Qmean [10; 20])%Q.
Proof.
  assert (H2 : 1 <= 2 <= 12) by lia.
  assert (H1 : 1 <= 1 <= 12) by lia.
  split; [exact H2|]. split.
  - apply (proj1 (X13_nan_iff_no_row usage_kwh df_months 2 H2)).
    intros r [<-|[<-|[<-|[<-|[]]]]]; vm_compute; discriminate.
  - apply (proj2 (X13_nan_iff_no_row usage_kwh df_months 1 H1)
             (mkRow 0 10 (1 # 10) 1)).
    + right. left. reflexivity.
    + vm_compute. reflexivity.
Defined.

(** X14.  The monthly means do not depend on the order of the rows: two
    frames with the same rows in different orders give, month by month,
    the same number or NaN both.  (Cells are exact rationals here.) *)
Theorem X14_means_ignore_row_order
    (col : Row -> Q) (df df' : DataFrame) (m : Z) :
  Permutation df df' ->
  1 <= m <= 12 ->
  same_cell
    (series_get (reindex (groupby_month_mean col df) months_order) (month_name m))
    (series_get (reindex (groupby_month_mean col df') months_order) (month_name m)).
Proof.
  intros Hp Hm. rewrite !reindex_groupby_mean_bucket by exact Hm.
  apply mean_or_nan_Permutation, bucket_Permutation, Hp.
Qed.

Lemma X14_means_ignore_row_order_witness :
  Permutation df_months df_months_shuffled /\ 1 <= 1 <= 12 /\
  same_cell
    (series_get (reindex (groupby_month_mean usage_kwh df_months) months_order)
                "January")
    (series_get (reindex (groupby_month_mean usage_kwh df_months_shuffled)
                         months_order) "January").
Proof.
  assert (Hp : Permutation df_months df_months_shuffled).
  { unfold df_months, df_months_shuffled.
    apply (Permutation_cons_app [_; _] [_]). cbn.
    apply (Permutation_cons_app [_; _] []). cbn.
    apply perm_swap. }
  assert (Hm : 1 <= 1 <= 12) by lia.
  split; [exact Hp|]. split; [exact Hm|].
  exact (X14_means_ignore_row_order usage_kwh df_months df_months_shuffled 1 Hp Hm).
Defined.

(** X15.  [reindex] on a series whose labels are all different, with
    requested labels that are all different: the result has exactly the
    requested labels in their order, every entry of the series under a
    requested label keeps its value, and reindexing the result on the same
    labels changes nothing. *)
Theorem X15_reindex_unique_labels (s : Series) (labels : list string) :
  NoDup (map fst s) ->
  NoDup labels ->
  map fst (reindex s labels) = labels
  /\ (forall (k : string) (v : option Q),
        In (k, v) s -> In k labels -> series_get (reindex s labels) k = v)
  /\ reindex (reindex s labels) labels = reindex s labels.
Proof.
  intros Hs _. split; [apply reindex_labels|]. split.
  - intros k v Hin Hk. rewrite series_get_reindex by exact Hk.
    unfold series_get. clear Hk.
    induction s as [|[k' v'] s IH]; [destruct Hin|].
    cbn in Hs. apply NoDup_cons in Hs as [Hnot Hs']. cbn.
    destruct (String.eqb_spec k' k) as [->|Hne].
    + destruct Hin as [E|Hin]; [injection E as ->; reflexivity|].
      exfalso. apply Hnot. apply list_elem_of_In.
      change k with (fst (k, v)). apply in_map, Hin.
    + destruct Hin as [E|Hin]; [injection E as E1 E2; contradiction|].
      exact (IH Hs' Hin).
  - unfold reindex at 1 3. apply map_ext_in. intros l Hl.
    rewrite series_get_reindex by exact Hl. reflexivity.
Qed.

Lemma X15_reindex_unique_labels_witness :
  NoDup (map fst (groupby_month_mean usage_kwh df_months))
  /\ NoDup months_order
  /\ map fst (reindex (groupby_month_mean usage_kwh df_months) months_order)
     = months_order
  /\ series_get (reindex (groupby_month_mean usage_kwh df_months) months_order)
                "March" = Some 30%Q.
Proof.
  assert (Hs : NoDup (map fst (groupby_month_mean usage_kwh df_months)))
    by (apply (bool_decide_eq_true_1 _); vm_compute; reflexivity).
  assert (Hl : NoDup months_order)
    by (apply (bool_decide_eq_true_1 _); vm_compute; reflexivity).
  split; [exact Hs|]. split; [exact Hl|].
  destruct (X15_reindex_unique_labels
              (groupby_month_mean usage_kwh df_months) months_order Hs Hl)
    as (Hlab & Hval & _).
  split; [exact Hlab|].
  apply Hval.
  - vm_compute. right. right. left. reflexivity.
  - vm_compute. right. right. left. reflexivity.
Defined.

(** X16.  Lines 108-111, run in a namespace where [monthly_usage] and
    [monthly_cost] are bound to the reindexed mean series of the usage and
    cost columns and [months_order] to the month names, bind
    [monthly_usage_cost] to a frame of twelve rows, January to December,
    whose row of a month holds the two bucket means of that month, NaN
    where the month has no row; no other name changes. *)
Theorem X16_frame_of_line_108 (df : DataFrame) (g : gmap string pyval) :
  g !! "monthly_usage"
    = Some (VSeries (reindex (groupby_month_mean usage_kwh df) months_order)) ->
  g !! "monthly_cost"
    = Some (VSeries (reindex (groupby_month_mean daily_cost df) months_order)) ->
  g !! "months_order" = Some (VList months_order) ->
  exists (g' : gmap string pyval) (frame : list SeasonRow),
    stmt_108 g = Ok g'
    /\ g' !! "monthly_usage_cost" = Some (VFrame frame)
    /\ (forall x : string, x <> "monthly_usage_cost"%string -> g' !! x = g !! x)
    /\ length frame = 12%nat
    /\ map Month frame = months_order
    /\ forall m : Z, 1 <= m <= 12 ->
         frame !! Z.to_nat (m - 1)
         = Some {| Month := month_name m;
                   Usage_kWh := mean_or_nan (bucket usage_kwh df m);
                   Cost_USD := mean_or_nan (bucket daily_cost df m) |}.
Proof.
  intros Hu Hc Ho.
  eexists _, _. split; [exact (stmt_108_bound g _ _ _ Hu Hc Ho)|].
  split; [apply lookup_insert_eq|].
  split; [intros x Hx; apply lookup_insert_ne; congruence|].
  apply usage_cost_frame_rows.
Qed.

Lemma X16_frame_of_line_108_witness :
  exists (g' : gmap string pyval) (frame : list SeasonRow),
    stmt_108 namespace_months = Ok g'
    /\ g' !! "monthly_usage_cost" = Some (VFrame frame)
    /\ length frame = 12%nat
    /\ frame !! 1%nat
       = Some {| Month := "February"; Usage_kWh := None; Cost_USD := None |}.
Proof.
  destruct (X16_frame_of_line_108 df_months namespace_months)
    as (g' & frame & Hrun & Hf & _ & Hlen & _ & Hrow).
  - vm_compute. reflexivity.
  - vm_compute. reflexivity.
  - vm_compute. reflexivity.
  - exists g', frame. split; [exact Hrun|]. split; [exact Hf|].
    split; [exact Hlen|].
    exact (Hrow 2 ltac:(lia)).
Defined.

(** ** The calendar conversion *)

(** X17.  The conversion from ordinal to year, month and day repeats
    every 146097 days with the year moved by 400: the month and the day of
    a date do not depend on which 400-year cycle it is in, and the name
    [strftime] gives is always one of the twelve of [months_order]. *)
Theorem X17_calendar_cycle (t : Timestamp) :
  ord2ymd (toordinal (t + 146097))
  = ((ord2ymd (toordinal t)).1.1 + 400,
     (ord2ymd (toordinal t)).1.2, (ord2ymd (toordinal t)).2)
  /\ strftime_B (t + 146097) = strftime_B t
  /\ In (strftime_B t) months_order.
Proof.
  assert (Hcycle : ord2ymd (toordinal (t + 146097))
                   = ((ord2ymd (toordinal t)).1.1 + 400,
                      (ord2ymd (toordinal t)).1.2, (ord2ymd (toordinal t)).2)).
  { unfold ord2ymd, toordinal. cbv zeta.
    replace (t + 146097 + 719163 - 1) with (t + 719163 - 1 + 1 * 146097) by lia.
    rewrite Z.div_add, Z.mod_add by lia.
    set (n0 := (t + 719163 - 1) mod 146097).
    destruct ((n0 mod 36524 mod 1461 / 365 =? 4) || (n0 / 36524 =? 4)).
    - cbn [fst snd]. f_equal. f_equal. lia.
    - destruct (_ <? _); cbn [fst snd]; f_equal; f_equal; lia. }
  split; [exact Hcycle|]. split.
  - unfold strftime_B, month_of. rewrite Hcycle. reflexivity.
  - rewrite strftime_B_month_name. apply month_name_in, month_of_range.
Qed.

(** ** The step on the frame as read *)

Section FrameAsRead.

Implicit Types (raw : list RawRow) (disk : Disk) (df : DataFrame).

Lemma ordinals_raw_of df :
  ordinals (map raw_date (map raw_of df))
  = Ok (map (fun r => toordinal (date r)) df).
Proof.
  induction df as [|r df IH]; [reflexivity|]. cbn. cbn in IH. rewrite IH.
  reflexivity.
Qed.

Lemma finite_raw_of (col : Row -> Q) (cell : RawRow -> option Q) df :
  (forall r, cell (raw_of r) = Some (col r)) ->
  finite (map cell (map raw_of df)) = Some (map col df).
Proof.
  intros Hcell. induction df as [|r df IH]; [reflexivity|].
  cbn. cbn in IH. rewrite Hcell, IH. reflexivity.
Qed.

(** A date that did not parse makes line 19 raise TypeError. *)
Lemma ordinals_unparsed (cells : list DateCell) (text : string) :
  In (Unparsed text) cells -> ordinals cells = Raise TypeError.
Proof.
  induction cells as [|c cells IH]; intros Hin; [destruct Hin|].
  destruct c as [t|text']; [|reflexivity].
  destruct Hin as [E|Hin]; [discriminate E|].
  cbn. rewrite (IH Hin). reflexivity.
Qed.

(** Line 19 raises nothing else, and only on such a date. *)
Lemma ordinals_raise (cells : list DateCell) (e : exn) :
  ordinals cells = Raise e ->
  e = TypeError /\ exists text, In (Unparsed text) cells.
Proof.
  induction cells as [|c cells IH]; [discriminate|].
  destruct c as [t|text]; cbn.
  - destruct (ordinals cells) as [X|e'] eqn:Ho; [discriminate|].
    cbn. intros [= <-]. destruct (IH eq_refl) as (-> & text & Hin).
    split; [reflexivity|]. exists text. right. exact Hin.
  - intros [= <-]. split; [reflexivity|]. exists text. left. reflexivity.
Qed.

Lemma ordinals_length (cells : list DateCell) (X : list Z) :
  ordinals cells = Ok X -> length X = length cells.
Proof.
  revert X. induction cells as [|c cells IH]; intros X.
  - intros [= <-]. reflexivity.
  - destruct c as [t|text]; cbn; [|discriminate].
    destruct (ordinals cells) as [X'|e]; [|discriminate].
    cbn. intros [= <-]. cbn. rewrite (IH X' eq_refl). reflexivity.
Qed.

Lemma finite_None (cells : list (option Q)) :
  finite cells = None <-> In None cells.
Proof.
  induction cells as [|c cells IH]; cbn.
  - split; [discriminate|intros []].
  - destruct c as [q|].
    + destruct (finite cells) as [l|].
      * split; [discriminate|]. intros [E|Hin]; [discriminate E|].
        apply IH in Hin. discriminate Hin.
      * split; [|reflexivity]. intros _. right. apply IH. reflexivity.
    + split; [|reflexivity]. intros _. left. reflexivity.
Qed.

(** [fit] raises on the empty column only, and then ValueError. *)
Lemma fit_raise (X : list Z) (y : list Q) (e : exn) :
  fit X y = Raise e -> e = ValueError /\ X = [].
Proof.
  destruct X as [|x X]; [|discriminate]. cbn. intros [= <-]. split; reflexivity.
Qed.

Lemma fit_validated_raise (X : list Z) (y : list (option Q)) (e : exn) :
  fit_validated X y = Raise e ->
  e = ValueError /\ (X = [] \/ In None y).
Proof.
  unfold fit_validated. destruct (finite y) as [v|] eqn:Hf.
  - intros H. apply fit_raise in H as [-> ->]. split; [reflexivity|left; reflexivity].
  - intros [= <-]. split; [reflexivity|]. right. apply finite_None, Hf.
Qed.

Lemma fit_validated_ok (X : list Z) (y : list (option Q)) (m : LinearRegression) :
  fit_validated X y = Ok m -> X <> [] /\ ~ In None y.
Proof.
  unfold fit_validated. destruct (finite y) as [v|] eqn:Hf; [|discriminate].
  intros Hfit. split.
  - intros ->. discriminate Hfit.
  - intros Hin. apply finite_None in Hin. congruence.
Qed.

(** Lines 18-34 by the outcome of each statement that can raise. *)
Lemma train_and_save_models_io_cases raw disk :
  train_and_save_models_io raw disk
  = match ordinals (map raw_date raw) with
    | Raise e => (disk, Raise e)
    | Ok X =>
        match fit_validated X (map raw_usage_kwh raw) with
        | Raise e => (disk, Raise e)
        | Ok um =>
            match fit_validated X (map raw_price_per_kwh raw) with
            | Raise e => (disk, Raise e)
            | Ok pm =>
                match fit_validated X (map raw_daily_cost raw) with
                | Raise e => (disk, Raise e)
                | Ok cm =>
                    ({| directories := {["models"]} ∪ directories disk;
                        pickles := saved um pm cm (pickles disk) |}, Ok tt)
                end
            end
        end
    end.
Proof.
  unfold train_and_save_models_io, mbind, io_bind, compute.
  destruct (ordinals (map raw_date raw)) as [X|e]; [|reflexivity].
  destruct (fit_validated X (map raw_usage_kwh raw)) as [um|e]; [|reflexivity].
  destruct (fit_validated X (map raw_price_per_kwh raw)) as [pm|e]; [|reflexivity].
  destruct (fit_validated X (map raw_daily_cost raw)) as [cm|e]; reflexivity.
Qed.

Lemma train_if_missing_io_hit raw disk :
  models_present (pickles disk) = true ->
  train_if_missing_io raw disk = (disk, Ok false).
Proof. intros H. unfold train_if_missing_io. rewrite H. reflexivity. Qed.

Lemma train_if_missing_io_miss raw disk :
  models_present (pickles disk) = false ->
  train_if_missing_io raw disk
  = match train_and_save_models_io raw disk with
    | (disk', Ok _) => (disk', Ok true)
    | (disk', Raise e) => (disk', Raise e)
    end.
Proof. intros H. unfold train_if_missing_io. rewrite H. reflexivity. Qed.

(** On rows whose cells are all well formed, lines 18-34 fit and store
    what [train_and_save_models] does, and create the directory. *)
Lemma train_and_save_models_io_raw_of df disk :
  train_and_save_models_io (map raw_of df) disk
  = match train_and_save_models df (pickles disk) with
    | Ok files' =>
        ({| directories := {["models"]} ∪ directories disk; pickles := files' |},
         Ok tt)
    | Raise e => (disk, Raise e)
    end.
Proof.
  rewrite train_and_save_models_io_cases, ordinals_raw_of.
  unfold fit_validated.
  rewrite (finite_raw_of usage_kwh raw_usage_kwh df) by reflexivity.
  rewrite (finite_raw_of price_per_kwh raw_price_per_kwh df) by reflexivity.
  rewrite (finite_raw_of daily_cost raw_daily_cost df) by reflexivity.
  unfold train_and_save_models, saved, pickle_dump.
  destruct (fit _ (map usage_kwh df)) as [um|e]; [|reflexivity].
  destruct (fit _ (map price_per_kwh df)) as [pm|e]; [|reflexivity].
  destruct (fit _ (map daily_cost df)) as [cm|e]; reflexivity.
Qed.

(** A raise of lines 18-34 comes before line 28: the disk is as it was. *)
Lemma train_and_save_models_io_raise raw disk (e : exn) :
  (train_and_save_models_io raw disk).2 = Raise e ->
  (train_and_save_models_io raw disk).1 = disk
  /\ (e = TypeError \/ e = ValueError).
Proof.
  rewrite train_and_save_models_io_cases.
  destruct (ordinals (map raw_date raw)) as [X|e0] eqn:Ho.
  - destruct (fit_validated X (map raw_usage_kwh raw)) as [um|e1] eqn:Hu.
    + destruct (fit_validated X (map raw_price_per_kwh raw)) as [pm|e2] eqn:Hp.
      * destruct (fit_validated X (map raw_daily_cost raw)) as [cm|e3] eqn:Hc.
        -- discriminate.
        -- cbn. intros [= <-]. split; [reflexivity|].
           right. exact (proj1 (fit_validated_raise _ _ _ Hc)).
      * cbn. intros [= <-]. split; [reflexivity|].
        right. exact (proj1 (fit_validated_raise _ _ _ Hp)).
    + cbn. intros [= <-]. split; [reflexivity|].
      right. exact (proj1 (fit_validated_raise _ _ _ Hu)).
  - cbn. intros [= <-]. split; [reflexivity|].
    left. exact (proj1 (ordinals_raise _ _ Ho)).
Qed.

End FrameAsRead.




